(** * ccx2paraview: the conversion driver ([ccx2paraview/main.py])

    A shallow embedding of [Converter.__init__], [Converter.run], the two
    path properties and the command-line entry point, together with the
    Python string and [os.path] primitives they call.

    Conventions.
    - Python [str] is [string]; a file's content is a [string] of bytes.
    - The file system is a finite map from path to content plus a set of
      directories; paths are compared as strings (no links, no aliasing of
      relative and absolute spellings).
    - Every observable call of the driver (logging, [os.makedirs],
      [shutil.copy], the parser, the three writers, [print]) appends an
      [event] to the world, in call order.
    - A Python exception is a value of [exn]; it aborts the computation and
      leaves the world as it was when raised.
    - A time value is a finite float in the source.  The driver only hashes
      and compares time values ([set], [sorted], dict keys), so a time is
      modelled by a point of a total order, [Z]. *)

From stdpp Require Import gmap strings list sorting.
From Stdlib Require Import Ascii.

Local Open Scope stdpp_scope.

(** ** Python [str] primitives *)

Module Str.

(** [s.startswith(p)] *)
Fixpoint startswith (p s : string) : bool :=
  match p, s with
  | EmptyString, _ => true
  | String a p', String b s' => Ascii.eqb a b && startswith p' s'
  | String _ _, EmptyString => false
  end.

(** [s[n:]] for [0 <= n] *)
Fixpoint drop (n : nat) (s : string) : string :=
  match n, s with
  | O, _ => s
  | S _, EmptyString => EmptyString
  | S n', String _ s' => drop n' s'
  end.

(** [s[:n]] for [0 <= n] *)
Fixpoint take (n : nat) (s : string) : string :=
  match n, s with
  | O, _ => EmptyString
  | S _, EmptyString => EmptyString
  | S n', String a s' => String a (take n' s')
  end.

(** [s.endswith(suffix)] *)
Definition endswith (suffix s : string) : bool :=
  (String.length suffix <=? String.length s) &&
  String.eqb (drop (String.length s - String.length suffix) s) suffix.

(** [s[:-n]] for [0 < n]: everything but the last [n] characters, the
    empty string when [s] is shorter than [n]. *)
Definition drop_last (n : nat) (s : string) : string :=
  take (String.length s - n) s.

(** [c * n] for a one-character string [c] *)
Fixpoint repeat_char (c : ascii) (n : nat) : string :=
  match n with
  | O => EmptyString
  | S n' => String c (repeat_char c n')
  end.

(** [s.split(c)] for a one-character separator: never the empty list. *)
Fixpoint split (c : ascii) (s : string) : list string :=
  match s with
  | EmptyString => [EmptyString]
  | String a s' =>
      if Ascii.eqb a c then EmptyString :: split c s'
      else match split c s' with
           | seg :: segs => String a seg :: segs
           | [] => [String a EmptyString]
           end
  end.

(** [s.replace(old, new)] for a non-empty [old]: occurrences are replaced
    left to right and do not overlap.  [skip] counts the characters of an
    occurrence just replaced that are still to be passed over. *)
Fixpoint replace_go (old new : string) (skip : nat) (s : string) : string :=
  match s with
  | EmptyString => EmptyString
  | String a s' =>
      match skip with
      | S k => replace_go old new k s'
      | O =>
          if startswith old s
          then new +:+ replace_go old new (String.length old - 1) s'
          else String a (replace_go old new 0 s')
      end
  end.

Definition replace (old new s : string) : string := replace_go old new 0 s.

(** [old in s] *)
Fixpoint contains (old s : string) : bool :=
  startswith old s ||
  match s with
  | EmptyString => false
  | String _ s' => contains old s'
  end.

(** Decimal digit of a number below ten. *)
Definition digit_char (d : nat) : ascii :=
  match d with
  | 0 => "0" | 1 => "1" | 2 => "2" | 3 => "3" | 4 => "4"
  | 5 => "5" | 6 => "6" | 7 => "7" | 8 => "8" | _ => "9"
  end%char.

(** Digits of [n] pushed in front of [acc], most significant first. *)
Fixpoint digits_go (fuel n : nat) (acc : string) : string :=
  let acc' := String (digit_char (n mod 10)) acc in
  match fuel with
  | O => acc'
  | S fuel' => if n <? 10 then acc' else digits_go fuel' (n / 10) acc'
  end.

(** [str(n)] for a non-negative integer. *)
Definition of_nat (n : nat) : string := digits_go n n EmptyString.

(** ['{:0{width}}'.format(n, width=w)] for a non-negative integer: the
    decimal digits, padded on the left with zeros up to [w] characters
    and never truncated. *)
Definition format_zero_pad (w n : nat) : string :=
  repeat_char "0"%char (w - String.length (of_nat n)) +:+ of_nat n.

(** Value of a character as a decimal digit (0 for a non-digit). *)
Definition digit_val (c : ascii) : nat :=
  if Ascii.eqb c "1"%char then 1 else if Ascii.eqb c "2"%char then 2
  else if Ascii.eqb c "3"%char then 3 else if Ascii.eqb c "4"%char then 4
  else if Ascii.eqb c "5"%char then 5 else if Ascii.eqb c "6"%char then 6
  else if Ascii.eqb c "7"%char then 7 else if Ascii.eqb c "8"%char then 8
  else if Ascii.eqb c "9"%char then 9 else 0.

(** [int(s)] for a string of decimal digits, continuing from [acc]. *)
Fixpoint to_nat_go (acc : nat) (s : string) : nat :=
  match s with
  | EmptyString => acc
  | String c s' => to_nat_go (10 * acc + digit_val c) s'
  end.

Definition to_nat (s : string) : nat := to_nat_go 0 s.

End Str.

(** ** [posixpath] *)

Module Path.

(** [(p[:i], p[i:])] with [i = p.rfind('/') + 1]. *)
Fixpoint rcut (p : string) : string * string :=
  match p with
  | EmptyString => (EmptyString, EmptyString)
  | String a p' =>
      match rcut p' with
      | (EmptyString, t) =>
          if Ascii.eqb a "/"%char then (String a EmptyString, t)
          else (EmptyString, String a t)
      | (h, t) => (String a h, t)
      end
  end.

(** [s.rstrip('/')] *)
Fixpoint rstrip_sep (s : string) : string :=
  match s with
  | EmptyString => EmptyString
  | String a s' =>
      match rstrip_sep s' with
      | EmptyString => if Ascii.eqb a "/"%char then EmptyString else String a EmptyString
      | r => String a r
      end
  end.

(** [os.path.split(p)]: the head keeps its trailing slashes only when it
    consists of slashes. *)
Definition split (p : string) : string * string :=
  let (head, tail) := rcut p in
  (if bool_decide (head ≠ EmptyString ∧
                   head ≠ Str.repeat_char "/"%char (String.length head))
   then rstrip_sep head else head, tail).

Definition dirname (p : string) : string := fst (split p).
Definition basename (p : string) : string := snd (split p).

(** [os.path.join(a, b)] *)
Definition join (a b : string) : string :=
  if Str.startswith "/" b then b
  else if bool_decide (a = EmptyString) || Str.endswith "/" a then a +:+ b
  else a +:+ "/" +:+ b.

End Path.

(** ** The parsed model *)

(** A time value: a point of a total order (a finite float in the source,
    of which the driver uses equality, hashing and comparison only). *)
Abbreviation time := Z (only parsing).

(** Modelled from the spec: the [FRDParser] module is not part of the
    sources at hand.  Following the spec's data model, a parse yields an
    optional node block, an optional element block (absent when the file
    has none) and the result blocks in file order, each tagged with its
    time value and field name.  The driver reads nothing else. *)
Record Node := { node_id : Z; node_coords : list Z }.
Record Element := { elem_id : Z; elem_type : Z; elem_nodes : list Z }.
Record ResultBlock := { value : time; field_name : string; ncomps : nat }.
Record FRD := {
  node_block : option (list Node);
  elem_block : option (list Element);
  result_blocks : list ResultBlock
}.

(** ** Exceptions, events, the world *)

Inductive exn :=
  | IndexError
  | FileNotFoundError
  | SameFileError
  | MalformedFile.

Inductive level := INFO | WARNING.

Inductive event :=
  | EMakedirs (path : string)
  | ECopy (src dst : string)
  | ELog (lvl : level) (msg : string)
  | EParse (path : string)
  | EWriteVTK (p : FRD) (file_name : string) (t : option time)
  | EWriteVTU (p : FRD) (file_name : string) (t : option time)
  | EWritePVD (file_name : string) (times_names : list (time * string))
  | EPrint (msg : string)
  | ECleanCache.

Record world := {
  files : gmap string string;
  dirs : gset string;
  events : list event
}.

(** The collaborators of the driver that live outside [main.py]: what the
    parser makes of a file's bytes, the bytes each writer produces for its
    arguments, and the two [os.path] functions that depend on the process
    (current directory, module location). *)
Class Collaborators := {
  parse_bytes : string → option FRD;
  vtk_bytes : FRD → string → option time → string;
  vtu_bytes : FRD → string → option time → string;
  pvd_bytes : string → list (time * string) → string;
  relpath : string → string;
  abspath : string → string
}.

(** State and exception monad of the driver. *)
Definition M (A : Type) : Type := world → (exn + A) * world.

Global Instance M_ret : MRet M := λ A x w, (inr x, w).
Global Instance M_bind : MBind M := λ A B f m w,
  match m w with
  | (inl e, w') => (inl e, w')
  | (inr x, w') => f x w'
  end.

Definition raise {A} (e : exn) : M A := λ w, (inl e, w).

Definition emit (e : event) : M unit := λ w,
  (inr tt, {| files := files w; dirs := dirs w; events := events w ++ [e] |}).

Definition write_file (path data : string) : M unit := λ w,
  (inr tt, {| files := <[path := data]> (files w); dirs := dirs w;
              events := events w |}).

Definition logging_info (msg : string) : M unit := emit (ELog INFO msg).
Definition logging_warning (msg : string) : M unit := emit (ELog WARNING msg).
Definition print (msg : string) : M unit := emit (EPrint msg).

(** [os.makedirs(path, exist_ok=True)]: the folder is recorded; failures of
    the operating system are not modelled. *)
Definition os_makedirs (path : string) : M unit := λ w,
  (inr tt, {| files := files w; dirs := {[path]} ∪ dirs w;
              events := events w ++ [EMakedirs path] |}).

(** [shutil.copy(src, dst)] with [dst] a file path: raises when there is no
    file at [src] or when [src] and [dst] are the same path. *)
Definition shutil_copy (src dst : string) : M unit := λ w,
  match files w !! src with
  | None => (inl FileNotFoundError, w)
  | Some data =>
      if bool_decide (src = dst) then (inl SameFileError, w)
      else (emit (ECopy src dst);; write_file dst data) w
  end.

Section driver.
Context `{Collaborators}.

(** Modelled from the spec: [FRDParser.Parse(path)] is not part of the
    sources at hand.  It reads the file at [path] and yields the parsed
    model, or fails with [MalformedFile]. *)
Definition FRDParser_Parse (path : string) : M FRD := λ w,
  match files w !! path with
  | None => (inl FileNotFoundError, w)
  | Some data =>
      match parse_bytes data with
      | None => (inl MalformedFile, w)
      | Some p => (emit (EParse path);; mret p) w
      end
  end.

(** Modelled from the spec: the three writers are not part of the sources
    at hand.  Each writes one file, at the path it is given, whose bytes
    are determined by its arguments. *)
Definition VTKWriter_writeVTK (p : FRD) (file_name : string) (t : option time)
  : M unit :=
  emit (EWriteVTK p file_name t);; write_file file_name (vtk_bytes p file_name t).

Definition VTUWriter_writeVTU (p : FRD) (file_name : string) (t : option time)
  : M unit :=
  emit (EWriteVTU p file_name t);; write_file file_name (vtu_bytes p file_name t).

Definition PVDWriter_writePVD (file_name : string)
    (times_names : list (time * string)) : M unit :=
  emit (EWritePVD file_name times_names);;
  write_file file_name (pvd_bytes file_name times_names).

(** Modelled from the spec: [clean.cache()] is not part of the sources at
    hand.  It deletes cached files, which are not part of the modelled
    file store. *)
Definition clean_cache : M unit := emit ECleanCache.

(** *** Python containers used by [run] *)

(** [set(xs)], as the list of its elements in iteration order. *)
Definition py_set (xs : list time) : list time :=
  elements (list_to_set (C := gset Z) xs).

(** [sorted(xs)] *)
Definition sorted (xs : list time) : list time := merge_sort Z.le xs.

(** [d[k] = v] on a dict kept in insertion order. *)
Fixpoint dict_set (d : list (time * string)) (k : time) (v : string)
  : list (time * string) :=
  match d with
  | [] => [(k, v)]
  | (k', v') :: d' =>
      if bool_decide (k' = k) then (k', v) :: d'
      else (k', v') :: dict_set d' k v
  end.

(** *** class Converter *)

Record Converter := {
  file_path : string;
  file_name : string;
  _output_folder : option string;
  ext : string;
  fmt : string
}.

Definition __init__ (file_path fmt : string) (output_folder : option string)
  : exn + Converter :=
  let temp := Str.split "."%char (snd (Path.split file_path)) in
  match temp !! 0%nat, temp !! 1%nat with
  | Some t0, Some t1 =>
      inr {| file_path := file_path; file_name := t0;
             _output_folder := output_folder; ext := t1; fmt := fmt |}
  | _, _ => inl IndexError
  end.

Definition output_folder (self : Converter) : string :=
  match _output_folder self with
  | None => Path.join (Path.dirname (file_path self)) "results"
  | Some folder => abspath folder
  end.

Definition output_file (self : Converter) : string :=
  Path.join (output_folder self) (file_name self +:+ "." +:+ ext self).

(** The file-name suffix of increment [counter] out of [l]. *)
Definition increment_ext (self : Converter) (l counter : nat) : string :=
  if bool_decide (1 < l)
  then "." +:+ Str.format_zero_pad (String.length (Str.of_nat l)) counter
           +:+ "." +:+ fmt self
  else "." +:+ fmt self.

(** First loop of [run]: fills [times_names]. *)
Fixpoint name_loop (self : Converter) (l : nat) (ts : list time) (counter : nat)
    (times_names : list (time * string)) : list (time * string) :=
  match ts with
  | [] => times_names
  | t :: ts' =>
      let ext := increment_ext self l counter in
      name_loop self l ts' (counter + 1)
        (dict_set times_names t (Str.replace ".frd" ext (output_file self)))
  end.

(** The two format tests that follow each other in both branches. *)
Definition write_one (self : Converter) (p : FRD) (file_name : string)
    (t : option time) : M unit :=
  (if bool_decide (fmt self = "vtk") then VTKWriter_writeVTK p file_name t
   else mret tt);;
  (if bool_decide (fmt self = "vtu") then VTUWriter_writeVTU p file_name t
   else mret tt).

(** Second loop of [run]: one writer call per item of [times_names]. *)
Fixpoint write_loop (self : Converter) (p : FRD) (items : list (time * string))
  : M unit :=
  match items with
  | [] => mret tt
  | (t, file_name) :: items' =>
      logging_info ("Writing " +:+ relpath file_name);;
      write_one self p file_name (Some t);;
      write_loop self p items'
  end.

(** [TimeSeries]: the value of [times] in [run]. *)
Definition TimeSeries (p : FRD) : list time :=
  sorted (py_set (value <$> result_blocks p)).

Definition run (self : Converter) : M unit :=
  os_makedirs (output_folder self);;
  shutil_copy (file_path self) (output_file self);;
  logging_info ("Parsing " +:+ relpath (output_file self));;
  p ← FRDParser_Parse (output_file self);
  if bool_decide (is_Some (node_block p)) && bool_decide (is_Some (elem_block p))
  then
    let times := TimeSeries p in
    let l := length times in
    if bool_decide (l ≠ 0%nat) then
      logging_info (Str.of_nat l +:+ " time increment"
                    +:+ Str.repeat_char "s"%char (1 `min` (l - 1)));;
      let times_names := name_loop self l (sorted times) 1 [] in
      write_loop self p times_names;;
      if bool_decide (1 < l) && bool_decide (fmt self = "vtu")
      then PVDWriter_writePVD
             (Str.replace ".frd" ".pvd" (output_file self)) times_names
      else mret tt
    else
      logging_warning "No time increments!";;
      let file_name := Str.drop_last 3 (output_file self) +:+ fmt self in
      write_one self p file_name None
  else
    logging_warning "File is empty!".

(** *** The command-line entry point, after [argparse] *)

Definition wrong_format_msg (format : string) : string :=
  "ERROR! Wrong format " +:+ String (ascii_of_nat 34) format
    +:+ String (ascii_of_nat 34) ". " +:+ "Choose one of: vtk, vtu.".

Definition main (filename format : string) : M unit :=
  (if bool_decide (format ∈ ["vtk"; "vtu"]) then
     match __init__ filename format None with
     | inl e => raise e
     | inr ccx2paraview => run ccx2paraview
     end
   else print (wrong_format_msg format));;
  clean_cache.

End driver.

(** ** Observing a run *)

(** The writes of a list of (path, bytes), first to last. *)
Definition write_all (ws : list (string * string)) (m : gmap string string)
  : gmap string string :=
  foldl (λ m kv, <[kv.1 := kv.2]> m) m ws.

(** The world after further events and file writes. *)
Definition extend (w : world) (evs : list event) (ws : list (string * string))
  : world :=
  {| files := write_all ws (files w); dirs := dirs w;
     events := events w ++ evs |}.

(** The calls of the legacy writer among [evs], in order. *)
Definition vtk_calls (evs : list event) : list (FRD * string * option time) :=
  evs ≫= λ e, match e with EWriteVTK p n t => [(p, n, t)] | _ => [] end.

(** The calls of the XML writer among [evs], in order. *)
Definition vtu_calls (evs : list event) : list (FRD * string * option time) :=
  evs ≫= λ e, match e with EWriteVTU p n t => [(p, n, t)] | _ => [] end.

(** The calls of the series index writer among [evs], in order. *)
Definition pvd_calls (evs : list event) : list (string * list (time * string)) :=
  evs ≫= λ e, match e with EWritePVD n d => [(n, d)] | _ => [] end.

(** The logged warnings among [evs], in order. *)
Definition warnings (evs : list event) : list string :=
  evs ≫= λ e, match e with ELog WARNING msg => [msg] | _ => [] end.

(** The calls of either mesh writer among [evs], in order. *)
Definition writer_calls (evs : list event) : list (FRD * string * option time) :=
  evs ≫= λ e, match e with
              | EWriteVTK p n t | EWriteVTU p n t => [(p, n, t)]
              | _ => []
              end.

(** The calls of either mesh writer that carry a time value, in order. *)
Definition timed_calls (evs : list event) : list (FRD * string * time) :=
  evs ≫= λ e, match e with
              | EWriteVTK p n (Some t) | EWriteVTU p n (Some t) => [(p, n, t)]
              | _ => []
              end.

Section traces.
Context `{Collaborators}.

(** What follows the parse in [run], as a function of the parse result. *)
Definition run_from_parse (self : Converter) (p : FRD) : M unit :=
  if bool_decide (is_Some (node_block p)) && bool_decide (is_Some (elem_block p))
  then
    let times := TimeSeries p in
    let l := length times in
    if bool_decide (l ≠ 0%nat) then
      logging_info (Str.of_nat l +:+ " time increment"
                    +:+ Str.repeat_char "s"%char (1 `min` (l - 1)));;
      let times_names := name_loop self l (sorted times) 1 [] in
      write_loop self p times_names;;
      if bool_decide (1 < l) && bool_decide (fmt self = "vtu")
      then PVDWriter_writePVD
             (Str.replace ".frd" ".pvd" (output_file self)) times_names
      else mret tt
    else
      logging_warning "No time increments!";;
      let file_name := Str.drop_last 3 (output_file self) +:+ fmt self in
      write_one self p file_name None
  else
    logging_warning "File is empty!".

(** The name given to increment [counter] out of [l]. *)
Definition timed_name (self : Converter) (l counter : nat) : string :=
  Str.replace ".frd" (increment_ext self l counter) (output_file self).

(** The names of the increments [1..l], in order. *)
Definition timed_names (self : Converter) (l : nat) : list string :=
  timed_name self l <$> seq 1 l.

(** The name of the single output when there is no time increment. *)
Definition untimed_name (self : Converter) : string :=
  Str.drop_last 3 (output_file self) +:+ fmt self.

(** The name of the series index. *)
Definition pvd_name (self : Converter) : string :=
  Str.replace ".frd" ".pvd" (output_file self).

(** Events and file writes of the two format tests. *)
Definition writer_events (self : Converter) (p : FRD) (n : string)
    (t : option time) : list event :=
  (if bool_decide (fmt self = "vtk") then [EWriteVTK p n t] else []) ++
  (if bool_decide (fmt self = "vtu") then [EWriteVTU p n t] else []).

Definition writer_writes (self : Converter) (p : FRD) (n : string)
    (t : option time) : list (string * string) :=
  (if bool_decide (fmt self = "vtk") then [(n, vtk_bytes p n t)] else []) ++
  (if bool_decide (fmt self = "vtu") then [(n, vtu_bytes p n t)] else []).

(** Events and file writes of the second loop. *)
Definition loop_events (self : Converter) (p : FRD)
    (items : list (time * string)) : list event :=
  items ≫= λ it, ELog INFO ("Writing " +:+ relpath it.2)
                  :: writer_events self p it.2 (Some it.1).

Definition loop_writes (self : Converter) (p : FRD)
    (items : list (time * string)) : list (string * string) :=
  items ≫= λ it, writer_writes self p it.2 (Some it.1).

(** Events and file writes of [run_from_parse]. *)
Definition body_events (self : Converter) (p : FRD) : list event :=
  let ts := TimeSeries p in
  let l := length ts in
  let items := zip ts (timed_names self l) in
  if bool_decide (is_Some (node_block p)) && bool_decide (is_Some (elem_block p))
  then
    if bool_decide (l ≠ 0%nat) then
      ELog INFO (Str.of_nat l +:+ " time increment"
                 +:+ Str.repeat_char "s"%char (1 `min` (l - 1)))
      :: loop_events self p items
      ++ (if bool_decide (1 < l) && bool_decide (fmt self = "vtu")
          then [EWritePVD (pvd_name self) items] else [])
    else
      ELog WARNING "No time increments!"
      :: writer_events self p (untimed_name self) None
  else [ELog WARNING "File is empty!"].

Definition body_writes (self : Converter) (p : FRD)
  : list (string * string) :=
  let ts := TimeSeries p in
  let l := length ts in
  let items := zip ts (timed_names self l) in
  if bool_decide (is_Some (node_block p)) && bool_decide (is_Some (elem_block p))
  then
    if bool_decide (l ≠ 0%nat) then
      loop_writes self p items
      ++ (if bool_decide (1 < l) && bool_decide (fmt self = "vtu")
          then [(pvd_name self, pvd_bytes (pvd_name self) items)] else [])
    else writer_writes self p (untimed_name self) None
  else [].

(** Events of [run] up to and including the parse. *)
Definition staging_events (self : Converter) : list event :=
  [EMakedirs (output_folder self);
   ECopy (file_path self) (output_file self);
   ELog INFO ("Parsing " +:+ relpath (output_file self));
   EParse (output_file self)].

(** Outcome, events and file writes of [run] as a function of the content
    of the input file ([None] when there is no such file). *)
Definition run_trace (self : Converter) (d : option string)
  : (exn + unit) * list event * list (string * string) :=
  match d with
  | None => (inl FileNotFoundError, [EMakedirs (output_folder self)], [])
  | Some data =>
      if bool_decide (file_path self = output_file self)
      then (inl SameFileError, [EMakedirs (output_folder self)], [])
      else
        match parse_bytes data with
        | None => (inl MalformedFile, take 3 (staging_events self),
                   [(output_file self, data)])
        | Some p => (inr tt, staging_events self ++ body_events self p,
                     (output_file self, data) :: body_writes self p)
        end
  end.

(** *** The outputs the claims speak of *)

(** The call of a mesh writer for one item of [times_names]. *)
Definition timed_call (p : FRD) (it : time * string) : FRD * string * option time :=
  (p, it.2, Some it.1).

(** A run in XML mode that produces a series: one file per time value of
    [p], named in increment order along ascending time, each name ending in
    its zero-padded increment and the format, and one index listing them. *)
Definition produces_xml_series (self : Converter) (w : world) (p : FRD)
  : Prop :=
  let ts := TimeSeries p in
  let N := length ts in
  ∃ (names : list string) (index : string) (evs : list event) (w' : world),
    run self w = (inr tt, w') ∧ events w' = events w ++ evs ∧
    vtu_calls evs = timed_call p <$> zip ts names ∧
    vtk_calls evs = [] ∧
    length names = N ∧ NoDup names ∧ StronglySorted Z.lt ts ∧
    (∀ i name, names !! i = Some name →
       Str.endswith
         ("." +:+ Str.format_zero_pad (String.length (Str.of_nat N)) (S i)
              +:+ ".vtu") name = true) ∧
    pvd_calls evs = [(index, zip ts names)] ∧ (index ∉ names) ∧
    (∀ i name t, names !! i = Some name → ts !! i = Some t →
       files w' !! name = Some (vtu_bytes p name (Some t))) ∧
    files w' !! index = Some (pvd_bytes index (zip ts names)).

(** A run whose per-time names carry the increment: the writer of the
    format is called once per time value of [p], in ascending order; with
    more than one time value the i-th name ends in a dot, the increment i
    padded with zeros to the digit count of the number of time values, a
    dot and the format; with one time value the name is the staged path
    with [.frd] replaced by a dot and the format. *)
Definition names_carry_increment (self : Converter) (w : world) (p : FRD)
  : Prop :=
  let ts := TimeSeries p in
  let L := length ts in
  ∃ (names : list string) (evs : list event) (w' : world),
    run self w = (inr tt, w') ∧ events w' = events w ++ evs ∧
    length names = L ∧
    writer_calls evs = timed_call p <$> zip ts names ∧
    (fmt self = "vtk" →
     vtk_calls evs = timed_call p <$> zip ts names ∧ vtu_calls evs = []) ∧
    (fmt self = "vtu" →
     vtu_calls evs = timed_call p <$> zip ts names ∧ vtk_calls evs = []) ∧
    (1 < L → ∀ i name, names !! i = Some name →
       let digits :=
         Str.format_zero_pad (String.length (Str.of_nat L)) (S i) in
       String.length digits = String.length (Str.of_nat L) ∧
       Str.to_nat digits = S i ∧
       Str.endswith ("." +:+ digits +:+ "." +:+ fmt self) name = true) ∧
    (L = 1 →
     names = [Str.replace ".frd" ("." +:+ fmt self) (output_file self)]).

(** A run that leaves one file per distinct time value: the calls that
    carry a time value pass the parse as it is, go through the time values
    in ascending order, and their file names are pairwise distinct and as
    many as there are distinct time values among the result blocks. *)
Definition one_file_per_time_value (self : Converter) (w : world) (p : FRD)
  : Prop :=
  let ts := TimeSeries p in
  ∃ (names : list string) (evs : list event) (w' : world),
    run self w = (inr tt, w') ∧ events w' = events w ++ evs ∧
    timed_calls evs = (λ it, (p, it.2, it.1)) <$> zip ts names ∧
    length names = length ts ∧ NoDup names ∧
    length names
    = size (list_to_set (C := gset Z) (value <$> result_blocks p)).

End traces.

(** The world once the output directory exists. *)
Definition with_dir (path : string) (w : world) : world :=
  {| files := files w; dirs := {[path]} ∪ dirs w; events := events w |}.

(** ** A sample environment

    Concrete collaborators and worlds on which the driver can be run. *)

Definition mesh_only : FRD :=
  {| node_block := Some [{| node_id := 1; node_coords := [0; 0; 0]%Z |}];
     elem_block := Some [{| elem_id := 1; elem_type := 1; elem_nodes := [1]%Z |}];
     result_blocks := [] |}.

Definition block (t : time) (field : string) (n : nat) : ResultBlock :=
  {| value := t; field_name := field; ncomps := n |}.

Definition with_blocks (bs : list ResultBlock) : FRD :=
  {| node_block := node_block mesh_only; elem_block := elem_block mesh_only;
     result_blocks := bs |}.

(** Two time values, one of them repeated, out of order. *)
Definition two_steps : FRD :=
  with_blocks [block 5 "TEMP" 1; block 2 "TEMP" 1; block 5 "DISP" 3;
               block 2 "DISP" 3].

Definition one_step : FRD :=
  with_blocks [block 7 "TEMP" 1; block 7 "DISP" 3].

Definition sample_parse (data : string) : option FRD :=
  if String.eqb data "garbage" then None
  else if String.eqb data "no nodes" then
    Some {| node_block := None; elem_block := elem_block mesh_only;
            result_blocks := [block 1 "DISP" 3] |}
  else if String.eqb data "mesh" then Some mesh_only
  else if String.eqb data "one step" then
    Some one_step
  else Some two_steps.

Definition sample : Collaborators :=
  {| parse_bytes := sample_parse;
     vtk_bytes p n t := "vtk " +:+ n;
     vtu_bytes p n t := "vtu " +:+ n;
     pvd_bytes n d := "pvd " +:+ n;
     relpath path := path;
     abspath path := "/work/" +:+ path |}.

(** A world holding one file. *)
Definition one_file (path data : string) : world :=
  {| files := {[path := data]}; dirs := ∅; events := [] |}.

(** A converter as [__init__] builds it, or a dummy when it raises. *)
Definition converter_of (file_path fmt : string) : Converter :=
  match __init__ file_path fmt None with
  | inr c => c
  | inl _ => {| file_path := ""; file_name := ""; _output_folder := None;
                ext := ""; fmt := "" |}
  end.

(** Splits a projection of the events of a run with time values into
    its parts: staging, the count message, the loop and what follows. *)
Ltac split_timed_events :=
  rewrite bind_app, bind_cons, bind_app; simpl.

(** ** Further observations *)

(** [c in s] for a character [c] *)
Fixpoint has_char (c : ascii) (s : string) : bool :=
  match s with
  | EmptyString => false
  | String a s' => Ascii.eqb a c || has_char c s'
  end.

(** [c.isdigit()] for an ASCII character *)
Definition is_digit (c : ascii) : bool :=
  Ascii.eqb c (Str.digit_char (Str.digit_val c)).

(** [s] consists of decimal digits. *)
Fixpoint all_digits (s : string) : bool :=
  match s with
  | EmptyString => true
  | String a s' => is_digit a && all_digits s'
  end.

(** The messages logged at level INFO among [evs], in order. *)
Definition infos (evs : list event) : list string :=
  evs ≫= λ e, match e with ELog INFO msg => [msg] | _ => [] end.

(** The path [d/n.frd], the converter [__init__] builds for it when no
    folder is given, and the staged path without its extension. *)
Definition plain_input (d n : string) : string :=
  d +:+ "/" +:+ n +:+ ".frd".

Definition plain_converter (d n f : string) : Converter :=
  {| file_path := plain_input d n; file_name := n; _output_folder := None;
     ext := "frd"; fmt := f |}.

Definition plain_stem (d n : string) : string :=
  d +:+ "/results/" +:+ n.

(** * Properties of the string primitives *)

Module StrFacts.
Import Str.

Local Arguments Ascii.eqb : simpl never.
Local Arguments Nat.div : simpl never.
Local Arguments Nat.modulo : simpl never.

Lemma sapp_cons a s t : String a s +:+ t = String a (s +:+ t).
Proof. reflexivity. Qed.

Lemma sapp_nil_l s : "" +:+ s = s.
Proof. reflexivity. Qed.

Lemma sapp_nil_r s : s +:+ "" = s.
Proof. induction s as [|a s IH]; [done|]. by rewrite sapp_cons, IH. Qed.

Lemma sapp_assoc s t u : (s +:+ t) +:+ u = s +:+ t +:+ u.
Proof. induction s as [|a s IH]; [done|]. by rewrite !sapp_cons, IH. Qed.

Lemma slength_app s t :
  String.length (s +:+ t) = String.length s + String.length t.
Proof. induction s as [|a s IH]; [done|]. rewrite sapp_cons. simpl. lia. Qed.


Lemma length_repeat_char c n : String.length (repeat_char c n) = n.
Proof. induction n; simpl; lia. Qed.

Lemma startswith_app p r : startswith p (p +:+ r) = true.
Proof.
  induction p as [|a p IH]; [done|].
  rewrite sapp_cons. simpl. by rewrite Ascii.eqb_refl, IH.
Qed.

Lemma drop_app_length s t : drop (String.length s) (s +:+ t) = t.
Proof. induction s as [|a s IH]; [done|]. rewrite sapp_cons. exact IH. Qed.


(** *** [replace] *)

Lemma contains_cons old a s :
  contains old (String a s) = false →
  startswith old (String a s) = false ∧ contains old s = false.
Proof. simpl. intros [??]%orb_false_iff. done. Qed.

(** Without an occurrence of [old], [replace] returns its argument. *)
Lemma replace_absent old new s :
  contains old s = false → replace old new s = s.
Proof.
  unfold replace. induction s as [|a s IH]; [done|].
  intros [Hs Hc]%contains_cons. simpl replace_go.
  destruct old as [|b old]; [done|].
  rewrite Hs. by rewrite IH.
Qed.



Lemma startswith_frd_short a s :
  startswith ".frd" (String a (s +:+ ".frd")) = true →
  startswith ".frd" (String a s) = true ∧ 3 ≤ String.length s.
Proof.
  destruct s as [|b [|c [|d s]]]; simpl; rewrite ?andb_false_r; try done.
  intros ->. split; [done|lia].
Qed.

Lemma startswith_frd_app a s t :
  startswith ".frd" (String a s) = true →
  startswith ".frd" (String a (s +:+ t)) = true.
Proof.
  destruct s as [|b [|c [|d s]]]; simpl;
    rewrite ?andb_false_r, ?sapp_cons; done.
Qed.

Lemma replace_go_frd_app new k s :
  k ≤ String.length s →
  replace_go ".frd" new k (s +:+ ".frd")
  = replace_go ".frd" new k s +:+ new.
Proof.
  revert k. induction s as [|a s IH]; intros k Hk.
  - assert (k = 0) as -> by (simpl in Hk; lia).
    simpl. by rewrite sapp_nil_r.
  - rewrite sapp_cons. destruct k as [|k].
    + cbn [replace_go].
      destruct (startswith ".frd" (String a (s +:+ ".frd"))) eqn:Hs.
      * apply startswith_frd_short in Hs as [-> Hlen].
        rewrite IH by (simpl; lia). by rewrite sapp_assoc.
      * destruct (startswith ".frd" (String a s)) eqn:Hs'.
        { by rewrite (startswith_frd_app _ _ ".frd" Hs') in Hs. }
        rewrite IH by lia. done.
    + cbn [replace_go]. apply IH. simpl in Hk. lia.
Qed.

(** [".frd"] does not overlap itself, so a final [".frd"] is replaced
    whatever precedes it. *)
Lemma replace_frd_app new s :
  replace ".frd" new (s +:+ ".frd") = replace ".frd" new s +:+ new.
Proof. apply replace_go_frd_app. lia. Qed.

(** *** [str] and zero padding *)

Lemma digit_val_char d : d < 10 → digit_val (digit_char d) = d.
Proof.
  intros Hd. do 10 (destruct d as [|d]; [done|]). lia.
Qed.

Lemma digits_go_fuel f f' n acc :
  n ≤ f → n ≤ f' → digits_go f n acc = digits_go f' n acc.
Proof.
  revert f' n acc. induction f as [|f IH]; intros [|f'] n acc Hf Hf'; simpl.
  - done.
  - assert (n = 0) as -> by lia. done.
  - assert (n = 0) as -> by lia. done.
  - destruct (Nat.ltb_spec n 10); [done|].
    pose proof (Nat.div_lt n 10). apply IH; lia.
Qed.

Lemma digits_go_acc f n acc :
  digits_go f n acc = digits_go f n "" +:+ acc.
Proof.
  revert n acc. induction f as [|f IH]; intros n acc; simpl; [done|].
  destruct (n <? 10); [done|].
  rewrite (IH _ (String _ acc)), (IH _ (String _ "")).
  by rewrite sapp_assoc.
Qed.

Lemma of_nat_small n : n < 10 → of_nat n = String (digit_char n) "".
Proof.
  intros Hn. unfold of_nat.
  destruct n as [|n]; cbn [digits_go]; rewrite Nat.mod_small by done;
    [done|].
  destruct (Nat.ltb_spec (S n) 10); [done|lia].
Qed.

Lemma of_nat_large n :
  10 ≤ n → of_nat n = of_nat (n / 10) +:+ String (digit_char (n mod 10)) "".
Proof.
  intros Hn. unfold of_nat. destruct n as [|n]; [lia|].
  cbn [digits_go]. destruct (Nat.ltb_spec (S n) 10); [lia|].
  rewrite digits_go_acc. f_equal.
  pose proof (Nat.div_lt (S n) 10).
  apply digits_go_fuel; lia.
Qed.

Lemma of_nat_length_pos n : 0 < String.length (of_nat n).
Proof.
  destruct (Nat.lt_ge_cases n 10).
  - rewrite of_nat_small by done. simpl. lia.
  - rewrite of_nat_large, slength_app by done. simpl. lia.
Qed.

(** A smaller number has no more digits. *)
Lemma of_nat_length_mono n m :
  n ≤ m → String.length (of_nat n) ≤ String.length (of_nat m).
Proof.
  revert n. induction (lt_wf m) as [m _ IH]; intros n Hnm.
  destruct (Nat.lt_ge_cases n 10) as [Hn|Hn].
  - rewrite (of_nat_small n) by done. pose proof (of_nat_length_pos m).
    simpl. lia.
  - rewrite (of_nat_large n), (of_nat_large m), !slength_app by lia.
    simpl. apply Nat.add_le_mono_r, IH.
    + apply Nat.div_lt; lia.
    + apply Nat.Div0.div_le_mono. done.
Qed.

Lemma to_nat_go_app a s t :
  to_nat_go a (s +:+ t) = to_nat_go (to_nat_go a s) t.
Proof.
  revert a. induction s as [|c s IH]; intros a; [done|].
  rewrite sapp_cons. simpl. apply IH.
Qed.

(** Reading back the digits of [n] gives [n]. *)
Lemma to_nat_of_nat n : to_nat (of_nat n) = n.
Proof.
  induction (lt_wf n) as [n _ IH].
  destruct (Nat.lt_ge_cases n 10) as [Hn|Hn].
  - rewrite of_nat_small by done. unfold to_nat. simpl.
    rewrite digit_val_char by done. lia.
  - rewrite of_nat_large by done. unfold to_nat.
    rewrite to_nat_go_app. fold (to_nat (of_nat (n / 10))).
    rewrite IH by (apply Nat.div_lt; lia).
    cbn [to_nat_go]. rewrite digit_val_char by (apply Nat.mod_upper_bound; lia).
    pose proof (Nat.div_mod_eq n 10). lia.
Qed.

Lemma to_nat_zeros k s : to_nat (repeat_char "0" k +:+ s) = to_nat s.
Proof.
  unfold to_nat. induction k as [|k IH]; [done|].
  simpl repeat_char. rewrite sapp_cons. exact IH.
Qed.

Lemma to_nat_format_zero_pad w n : to_nat (format_zero_pad w n) = n.
Proof. unfold format_zero_pad. by rewrite to_nat_zeros, to_nat_of_nat. Qed.

(** Padding to the digit count of [l] gives exactly that many characters
    for every counter up to [l]. *)
Lemma length_format_zero_pad l n :
  n ≤ l →
  String.length (format_zero_pad (String.length (of_nat l)) n)
  = String.length (of_nat l).
Proof.
  intros Hn. unfold format_zero_pad.
  rewrite slength_app, length_repeat_char.
  pose proof (of_nat_length_mono n l Hn). lia.
Qed.

End StrFacts.

Module PathFacts.
Import Str StrFacts.

Local Arguments Ascii.eqb : simpl never.

(** [join] keeps its second argument as the end of the path. *)
Lemma join_ends a b : ∃ pre, Path.join a b = pre +:+ b.
Proof.
  unfold Path.join. destruct (startswith "/" b).
  - by exists "".
  - destruct (_ || _).
    + by exists a.
    + exists (a +:+ "/"). by rewrite sapp_assoc.
Qed.

(** What follows the last slash does not start with a slash. *)
Lemma rcut_tail p : startswith "/" (Path.rcut p).2 = false.
Proof.
  induction p as [|a p IH]; [done|]. simpl.
  destruct (Path.rcut p) as [[|b h] t]; simpl in *; [|done].
  destruct (Ascii.eqb_spec a "/") as [->|Hne]; simpl; [done|].
  destruct (Ascii.eqb_spec "/" a) as [<-|]; done.
Qed.

Lemma basename_no_leading_sep p : startswith "/" (Path.basename p) = false.
Proof.
  unfold Path.basename, Path.split. pose proof (rcut_tail p) as Ht.
  by destruct (Path.rcut p).
Qed.

(** The first segment of a split starts like the string itself. *)
Lemma split_first s seg rest t :
  split "." s = seg :: rest →
  startswith "/" s = false → startswith "/" ("." +:+ t) = false →
  startswith "/" (seg +:+ "." +:+ t) = false.
Proof.
  intros Hsplit Hs Ht. destruct s as [|a s]; simpl in Hsplit.
  - by injection Hsplit as <- <-.
  - destruct (Ascii.eqb_spec a "."); [by injection Hsplit as <- <-|].
    destruct (split "." s) as [|seg' segs]; injection Hsplit as <- <-;
      rewrite sapp_cons; simpl in *; by rewrite andb_true_r in *.
Qed.

(** [join] of a relative second argument. *)
Lemma join_relative a b :
  startswith "/" b = false →
  ∃ sep, (sep = "" ∨ sep = "/") ∧ Path.join a b = a +:+ sep +:+ b.
Proof.
  intros Hb. unfold Path.join. rewrite Hb.
  destruct (_ || _); [exists ""|exists "/"]; split; auto.
Qed.

End PathFacts.

(** * Properties of the containers *)

Section container_facts.

Lemma sorted_Permutation xs : sorted xs ≡ₚ xs.
Proof. apply merge_sort_Permutation. Qed.

Lemma sorted_StronglySorted xs : StronglySorted Z.le (sorted xs).
Proof. apply (StronglySorted_merge_sort Z.le). Qed.

(** Sorting a sorted list changes nothing. *)
Lemma sorted_fixpoint xs : Sorted Z.le xs → sorted xs = xs.
Proof.
  intros Hs. apply (Sorted_unique Z.le); [|done|apply sorted_Permutation].
  apply (Sorted_merge_sort Z.le).
Qed.

Lemma py_set_NoDup xs : NoDup (py_set xs).
Proof. unfold py_set. apply NoDup_elements. Qed.

Lemma py_set_elem_of xs x : x ∈ py_set xs ↔ x ∈ xs.
Proof. unfold py_set. by rewrite elem_of_elements, elem_of_list_to_set. Qed.


Lemma TimeSeries_elem_of p t :
  t ∈ TimeSeries p ↔ ∃ b, b ∈ result_blocks p ∧ value b = t.
Proof.
  unfold TimeSeries. rewrite sorted_Permutation, py_set_elem_of.
  rewrite list_elem_of_fmap. split.
  - intros (b & -> & Hb). by exists b.
  - intros (b & Hb & <-). by exists b.
Qed.

Lemma TimeSeries_NoDup p : NoDup (TimeSeries p).
Proof. unfold TimeSeries. rewrite sorted_Permutation. apply py_set_NoDup. Qed.


Lemma TimeSeries_sorted_again p : sorted (TimeSeries p) = TimeSeries p.
Proof.
  apply sorted_fixpoint, StronglySorted_Sorted, sorted_StronglySorted.
Qed.


Lemma TimeSeries_nil p : TimeSeries p = [] ↔ result_blocks p = [].
Proof.
  split.
  - intros Hnil. destruct (result_blocks p) as [|b bs] eqn:Hbs; [done|].
    assert (value b ∈ TimeSeries p) as Hin.
    { apply TimeSeries_elem_of. exists b. rewrite Hbs. split; [left|done]. }
    rewrite Hnil in Hin. by apply elem_of_nil in Hin.
  - intros Hbs. apply Permutation_nil_r. unfold TimeSeries.
    rewrite sorted_Permutation, Hbs. unfold py_set. simpl.
    by rewrite elements_empty.
Qed.

Lemma dict_set_fresh d k v : k ∉ d.*1 → dict_set d k v = d ++ [(k, v)].
Proof.
  induction d as [|[k' v'] d IH]; [done|]. simpl.
  intros [Hne Hnotin]%not_elem_of_cons.
  rewrite bool_decide_eq_false_2 by done. by rewrite IH.
Qed.

End container_facts.

(** * The driver as a trace *)

Section world_facts.

Lemma write_all_app ws1 ws2 m :
  write_all (ws1 ++ ws2) m = write_all ws2 (write_all ws1 m).
Proof. apply foldl_app. Qed.

Lemma extend_nil w : extend w [] [] = w.
Proof. destruct w. unfold extend. simpl. by rewrite app_nil_r. Qed.

Lemma extend_extend w evs1 ws1 evs2 ws2 :
  extend (extend w evs1 ws1) evs2 ws2 = extend w (evs1 ++ evs2) (ws1 ++ ws2).
Proof. unfold extend. simpl. by rewrite write_all_app, app_assoc. Qed.

(** The last write to a path decides its content. *)
Lemma write_all_lookup ws m k :
  write_all ws m !! k
  = match list_find (λ kv, kv.1 = k) (reverse ws) with
    | Some (_, kv) => Some kv.2
    | None => m !! k
    end.
Proof.
  revert m. induction ws as [|[k' v] ws IH] using rev_ind; intros m; [done|].
  rewrite write_all_app, reverse_app. simpl.
  destruct (decide (k' = k)) as [->|Hne].
  - by rewrite lookup_insert_eq.
  - rewrite lookup_insert_ne by done. rewrite IH.
    by destruct (list_find _ (reverse ws)) as [[??]|].
Qed.

(** Writing the same list a second time changes nothing. *)
Lemma write_all_idemp ws m : write_all ws (write_all ws m) = write_all ws m.
Proof.
  apply map_eq. intros k. rewrite (write_all_lookup ws (write_all ws m)).
  rewrite (write_all_lookup ws m).
  by destruct (list_find _ (reverse ws)) as [[??]|].
Qed.

(** A path written once, and by no later write, holds what was written. *)
Lemma write_all_lookup_last ws1 k v ws2 m :
  k ∉ ws2.*1 → write_all (ws1 ++ (k, v) :: ws2) m !! k = Some v.
Proof.
  intros Hk. rewrite write_all_app. simpl.
  generalize (<[k:=v]> (write_all ws1 m)) (lookup_insert_eq (write_all ws1 m) k v).
  induction ws2 as [|[k' v'] ws2 IH]; intros m' Hm'; [done|].
  simpl in *. apply not_elem_of_cons in Hk as [Hne Hk].
  apply IH; [done|]. by rewrite lookup_insert_ne.
Qed.

Lemma write_all_lookup_other ws m k :
  k ∉ ws.*1 → write_all ws m !! k = m !! k.
Proof.
  revert m. induction ws as [|[k' v'] ws IH]; intros m Hk; [done|].
  simpl in *. apply not_elem_of_cons in Hk as [Hne Hk].
  rewrite IH by done. by rewrite lookup_insert_ne.
Qed.

End world_facts.

Section monad_facts.

Lemma bind_ok {A B} (m : M A) (f : A → M B) w x w' :
  m w = (inr x, w') → (m ≫= f) w = f x w'.
Proof. intros Hm. unfold mbind, M_bind. by rewrite Hm. Qed.

Lemma bind_raise {A B} (m : M A) (f : A → M B) w e w' :
  m w = (inl e, w') → (m ≫= f) w = (inl e, w').
Proof. intros Hm. unfold mbind, M_bind. by rewrite Hm. Qed.

Lemma emit_extend e w : emit e w = (inr tt, extend w [e] []).
Proof. done. Qed.

Lemma write_file_extend k v w : write_file k v w = (inr tt, extend w [] [(k, v)]).
Proof. unfold write_file, extend. simpl. by rewrite app_nil_r. Qed.

Lemma os_makedirs_extend path w :
  os_makedirs path w = (inr tt, extend (with_dir path w) [EMakedirs path] []).
Proof. done. Qed.

(** An emitted event followed by a file write. *)
Lemma emit_write e k v w :
  (emit e;; write_file k v) w = (inr tt, extend w [e] [(k, v)]).
Proof.
  rewrite (bind_ok _ _ _ _ _ (emit_extend e w)), write_file_extend.
  by rewrite extend_extend.
Qed.

End monad_facts.

Section run_facts.
Context `{Collaborators}.

Lemma write_one_extend c p n t w :
  write_one c p n t w
  = (inr tt, extend w (writer_events c p n t) (writer_writes c p n t)).
Proof.
  unfold write_one, writer_events, writer_writes.
  unfold VTKWriter_writeVTK, VTUWriter_writeVTU.
  destruct (bool_decide (fmt c = "vtk")), (bool_decide (fmt c = "vtu")).
  - rewrite (bind_ok _ _ _ _ _ (emit_write _ _ _ w)), emit_write.
    by rewrite extend_extend.
  - rewrite (bind_ok _ _ _ _ _ (emit_write _ _ _ w)).
    unfold mret, M_ret. by rewrite !app_nil_r.
  - erewrite bind_ok by reflexivity. rewrite emit_write. done.
  - erewrite bind_ok by reflexivity. unfold mret, M_ret. by rewrite extend_nil.
Qed.

Lemma write_loop_extend c p items w :
  write_loop c p items w
  = (inr tt, extend w (loop_events c p items) (loop_writes c p items)).
Proof.
  revert w. induction items as [|[t n] items IH]; intros w.
  - simpl. unfold mret, M_ret. by rewrite extend_nil.
  - cbn [write_loop]. unfold logging_info.
    rewrite (bind_ok _ _ _ _ _ (emit_extend _ w)).
    rewrite (bind_ok _ _ _ _ _ (write_one_extend _ _ _ _ _)).
    rewrite IH, !extend_extend. done.
Qed.

(** The first loop names the increments in the order of the time values. *)
Lemma name_loop_zip c l ts k acc :
  NoDup ts → (∀ t, t ∈ ts → t ∉ acc.*1) →
  name_loop c l ts k acc
  = acc ++ zip ts (timed_name c l <$> seq k (length ts)).
Proof.
  revert k acc. induction ts as [|t ts IH]; intros k acc Hnd Hacc.
  - simpl. by rewrite app_nil_r.
  - apply NoDup_cons in Hnd as [Hnotin Hnd]. cbn [name_loop].
    rewrite dict_set_fresh by (apply Hacc; left).
    rewrite IH; [|done|].
    + rewrite <- app_assoc. simpl. by rewrite Nat.add_1_r.
    + intros t' Ht'. rewrite fmap_app, elem_of_app. simpl.
      intros [?|Heq%list_elem_of_singleton].
      * by eapply Hacc; [right|].
      * by subst.
Qed.

Lemma times_names_zip c p :
  name_loop c (length (TimeSeries p)) (sorted (TimeSeries p)) 1 []
  = zip (TimeSeries p) (timed_names c (length (TimeSeries p))).
Proof.
  rewrite TimeSeries_sorted_again, name_loop_zip.
  - done.
  - apply TimeSeries_NoDup.
  - intros t _. apply not_elem_of_nil.
Qed.

Lemma run_from_parse_extend c p w :
  run_from_parse c p w = (inr tt, extend w (body_events c p) (body_writes c p)).
Proof.
  unfold run_from_parse, body_events, body_writes.
  destruct (_ && _); [|apply emit_extend].
  cbv zeta. rewrite times_names_zip.
  destruct (bool_decide (length (TimeSeries p) ≠ 0)).
  - unfold logging_info. rewrite (bind_ok _ _ _ _ _ (emit_extend _ w)).
    rewrite (bind_ok _ _ _ _ _ (write_loop_extend _ _ _ _)).
    rewrite extend_extend. simpl.
    destruct (_ && _).
    + unfold PVDWriter_writePVD. rewrite emit_write, extend_extend.
      done.
    + unfold mret, M_ret. by rewrite !app_nil_r.
  - unfold logging_warning. rewrite (bind_ok _ _ _ _ _ (emit_extend _ w)).
    rewrite write_one_extend, extend_extend. done.
Qed.

Lemma run_unfold c :
  run c
  = (os_makedirs (output_folder c);;
     shutil_copy (file_path c) (output_file c);;
     logging_info ("Parsing " +:+ relpath (output_file c));;
     FRDParser_Parse (output_file c) ≫= run_from_parse c).
Proof. reflexivity. Qed.

(** [run] on any world: outcome, new events and file writes are those of
    [run_trace] at the content of the input file. *)
Lemma run_spec c w :
  run c w
  = let '(r, evs, ws) := run_trace c (files w !! file_path c) in
    (r, extend (with_dir (output_folder c) w) evs ws).
Proof.
  rewrite run_unfold. unfold run_trace.
  rewrite (bind_ok _ _ _ _ _ (os_makedirs_extend _ w)).
  set (w1 := extend _ _ _).
  assert (files w1 = files w) as Hf by done.
  destruct (files w !! file_path c) as [data|] eqn:Hd.
  - destruct (bool_decide (file_path c = output_file c)) eqn:Hsame.
    + apply bind_raise. unfold shutil_copy. by rewrite Hf, Hd, Hsame.
    + erewrite bind_ok; last first.
      { unfold shutil_copy. rewrite Hf, Hd, Hsame. apply emit_write. }
      unfold logging_info. erewrite bind_ok by apply emit_extend.
      subst w1. rewrite !extend_extend. simpl app.
      set (w3 := extend _ _ _).
      assert (files w3 !! output_file c = Some data) as Hstaged.
      { subst w3. simpl. apply lookup_insert_eq. }
      destruct (parse_bytes data) as [p|] eqn:Hp.
      * erewrite bind_ok; last first.
        { unfold FRDParser_Parse. rewrite Hstaged, Hp.
          erewrite bind_ok by apply emit_extend. reflexivity. }
        rewrite run_from_parse_extend. subst w3. rewrite !extend_extend. done.
      * apply bind_raise. unfold FRDParser_Parse. by rewrite Hstaged, Hp.
  - apply bind_raise. unfold shutil_copy. by rewrite Hf, Hd.
Qed.

End run_facts.

(** * Output names *)

Section naming_facts.
Context `{Collaborators}.
Import Str StrFacts.

(** The staged path ends with the name, a dot and the extension. *)
Lemma output_file_ends c :
  ∃ pre, output_file c = pre +:+ file_name c +:+ "." +:+ ext c.
Proof. apply PathFacts.join_ends. Qed.

Lemma output_file_frd c :
  ext c = "frd" → ∃ stem, output_file c = stem +:+ ".frd".
Proof.
  intros Hext. destruct (output_file_ends c) as [pre Hpre].
  exists (pre +:+ file_name c). by rewrite Hpre, Hext, sapp_assoc.
Qed.


Lemma increment_ext_many c l k :
  1 < l →
  increment_ext c l k
  = "." +:+ format_zero_pad (String.length (of_nat l)) k +:+ "." +:+ fmt c.
Proof. intros Hl. unfold increment_ext. by rewrite bool_decide_eq_true_2. Qed.

Lemma increment_ext_single c l k : l ≤ 1 → increment_ext c l k = "." +:+ fmt c.
Proof.
  intros Hl. unfold increment_ext. by rewrite bool_decide_eq_false_2 by lia.
Qed.

Lemma increment_ext_length c l k :
  1 < l → k ≤ l →
  String.length (increment_ext c l k)
  = 2 + String.length (of_nat l) + String.length (fmt c).
Proof.
  intros Hl Hk. rewrite increment_ext_many by done.
  rewrite sapp_cons, sapp_nil_l. simpl String.length.
  rewrite slength_app, length_format_zero_pad by done.
  rewrite sapp_cons, sapp_nil_l. simpl String.length. lia.
Qed.


Lemma length_timed_names c l : length (timed_names c l) = l.
Proof. unfold timed_names. by rewrite length_fmap, length_seq. Qed.




(** *** The writer calls among the events of the second loop *)

Lemma loop_events_vtu c p items :
  fmt c = "vtu" →
  loop_events c p items
  = items ≫= λ it, [ELog INFO ("Writing " +:+ relpath it.2);
                     EWriteVTU p it.2 (Some it.1)].
Proof.
  intros Hfmt. unfold loop_events, writer_events. by rewrite Hfmt.
Qed.


Lemma loop_writes_vtu c p items :
  fmt c = "vtu" →
  loop_writes c p items
  = (λ it, (it.2, vtu_bytes p it.2 (Some it.1))) <$> items.
Proof.
  intros Hfmt. unfold loop_writes, writer_writes. rewrite Hfmt.
  induction items as [|it items IH]; [done|].
  by rewrite bind_cons, fmap_cons, IH.
Qed.

Lemma loop_writes_vtk c p items :
  fmt c = "vtk" →
  loop_writes c p items
  = (λ it, (it.2, vtk_bytes p it.2 (Some it.1))) <$> items.
Proof.
  intros Hfmt. unfold loop_writes, writer_writes. rewrite Hfmt.
  induction items as [|it items IH]; [done|].
  by rewrite bind_cons, fmap_cons, IH.
Qed.





Lemma pvd_calls_loop c p items : pvd_calls (loop_events c p items) = [].
Proof.
  unfold loop_events, writer_events.
  induction items as [|it items IH]; [done|].
  unfold pvd_calls in *. rewrite bind_cons, bind_app, IH.
  by destruct (bool_decide _), (bool_decide _).
Qed.


Lemma timed_calls_loop c p items :
  fmt c = "vtk" ∨ fmt c = "vtu" →
  timed_calls (loop_events c p items) = (λ it, (p, it.2, it.1)) <$> items.
Proof.
  intros Hfmt. unfold loop_events, writer_events.
  induction items as [|it items IH]; [done|].
  unfold timed_calls in *. rewrite bind_cons, bind_app, IH.
  by destruct Hfmt as [-> | ->].
Qed.



(** [run] once the input is staged and parsed. *)
Lemma run_parsed c w data p :
  files w !! file_path c = Some data →
  file_path c ≠ output_file c →
  parse_bytes data = Some p →
  run c w
  = (inr tt, extend (with_dir (output_folder c) w)
               (staging_events c ++ body_events c p)
               ((output_file c, data) :: body_writes c p)).
Proof.
  intros Hd Hne Hp. rewrite run_spec, Hd. unfold run_trace.
  by rewrite bool_decide_eq_false_2, Hp by done.
Qed.

Lemma body_events_timed c p :
  is_Some (node_block p) → is_Some (elem_block p) →
  length (TimeSeries p) ≠ 0 →
  let items := zip (TimeSeries p) (timed_names c (length (TimeSeries p))) in
  body_events c p
  = ELog INFO (Str.of_nat (length (TimeSeries p)) +:+ " time increment"
               +:+ Str.repeat_char "s" (1 `min` (length (TimeSeries p) - 1)))
    :: loop_events c p items
    ++ (if bool_decide (1 < length (TimeSeries p)) && bool_decide (fmt c = "vtu")
        then [EWritePVD (pvd_name c) items] else [])
  ∧ body_writes c p
  = loop_writes c p items
    ++ (if bool_decide (1 < length (TimeSeries p)) && bool_decide (fmt c = "vtu")
        then [(pvd_name c, pvd_bytes (pvd_name c) items)] else []).
Proof.
  intros Hn He Hl items. unfold body_events, body_writes.
  by rewrite !bool_decide_eq_true_2 by done.
Qed.

(** What [__init__] keeps of the path. *)
Lemma init_fields fp f folder c :
  __init__ fp f folder = inr c →
  file_path c = fp ∧ fmt c = f ∧ _output_folder c = folder ∧
  ∃ rest, Str.split "." (Path.basename fp) = file_name c :: ext c :: rest.
Proof.
  unfold __init__, Path.basename.
  destruct (Str.split "." (Path.split fp).2) as [|t0 [|t1 rest]]; simpl;
    try discriminate.
  intros [= <-]. simpl. repeat split. by exists rest.
Qed.

(** The staged copy lies directly in the output folder. *)
Lemma output_file_in_folder fp f folder c :
  __init__ fp f folder = inr c →
  ∃ sep, (sep = "" ∨ sep = "/") ∧
    output_file c = output_folder c +:+ sep +:+ file_name c +:+ "." +:+ ext c.
Proof.
  intros (_ & _ & _ & rest & Hsplit)%init_fields.
  apply PathFacts.join_relative.
  apply (PathFacts.split_first _ _ _ _ Hsplit); [|done].
  apply PathFacts.basename_no_leading_sep.
Qed.

(** Outside XML mode no series index is written, whatever the input. *)
Lemma pvd_calls_run_trace c d :
  fmt c ≠ "vtu" → pvd_calls (run_trace c d).1.2 = [].
Proof.
  intros Hfmt. unfold run_trace. destruct d as [data|]; [|done].
  destruct (bool_decide (file_path c = output_file c)); [done|].
  destruct (parse_bytes data) as [p|]; [|done]. simpl.
  unfold body_events.
  destruct (bool_decide _ && bool_decide _); [|done].
  destruct (bool_decide (length (TimeSeries p) ≠ 0)).
  - unfold pvd_calls. rewrite bind_cons, bind_app. simpl.
    fold (pvd_calls (loop_events c p
            (zip (TimeSeries p) (timed_names c (length (TimeSeries p)))))).
    rewrite pvd_calls_loop, (bool_decide_eq_false_2 (fmt c = "vtu")) by done.
    by rewrite andb_false_r.
  - unfold writer_events. by destruct (bool_decide _), (bool_decide _).
Qed.

End naming_facts.

(** * The claims *)

Section claims.
Context `{Collaborators}.


(** C2: with both blocks present and no result block, [run] returns
    normally, logs the warning "No time increments!" and calls the writer
    of the format once, with no time value, on the staged path with its
    last three characters replaced by the format; the parse it passes has
    no result block. *)
Theorem C2_no_increment_single_output (c : Converter) (w : world)
    (data : string) (p : FRD) :
  fmt c = "vtk" ∨ fmt c = "vtu" →
  files w !! file_path c = Some data →
  file_path c ≠ output_file c →
  parse_bytes data = Some p →
  is_Some (node_block p) → is_Some (elem_block p) →
  result_blocks p = [] →
  let name := Str.drop_last 3 (output_file c) +:+ fmt c in
  ∃ evs bytes,
    run c w = (inr tt,
               {| files := <[name := bytes]> (<[output_file c := data]> (files w));
                  dirs := {[output_folder c]} ∪ dirs w;
                  events := events w ++ evs |}) ∧
    warnings evs = ["No time increments!"] ∧
    writer_calls evs = [(p, name, None)] ∧ pvd_calls evs = [] ∧
    (fmt c = "vtk" →
     vtk_calls evs = [(p, name, None)] ∧ bytes = vtk_bytes p name None) ∧
    (fmt c = "vtu" →
     vtu_calls evs = [(p, name, None)] ∧ bytes = vtu_bytes p name None).
Proof.
  intros Hfmt Hd Hne Hp Hnode Helem Hblocks name.
  assert (TimeSeries p = []) as Hts by (by apply TimeSeries_nil).
  exists (staging_events c ++ body_events c p).
  exists (if bool_decide (fmt c = "vtk") then vtk_bytes p name None
          else vtu_bytes p name None).
  assert (run c w
          = (inr tt, extend (with_dir (output_folder c) w)
                       (staging_events c ++ body_events c p)
                       ((output_file c, data) :: body_writes c p))) as ->.
  { rewrite run_spec, Hd. unfold run_trace.
    by rewrite bool_decide_eq_false_2, Hp by done. }
  unfold body_events, body_writes, writer_events, writer_writes, untimed_name.
  rewrite !bool_decide_eq_true_2, Hts by done. fold name.
  destruct Hfmt as [Hfmt|Hfmt]; rewrite Hfmt; simpl; repeat split; done.
Qed.

(** C3: when the parse yields no node block or no element block, [run]
    returns normally, logs the warning "File is empty!", calls no writer,
    and the only file it adds is the staged copy of the input. *)
Theorem C3_empty_mesh_no_output (c : Converter) (w : world) (data : string)
    (p : FRD) :
  files w !! file_path c = Some data →
  file_path c ≠ output_file c →
  parse_bytes data = Some p →
  node_block p = None ∨ elem_block p = None →
  ∃ evs,
    run c w = (inr tt,
               {| files := <[output_file c := data]> (files w);
                  dirs := {[output_folder c]} ∪ dirs w;
                  events := events w ++ evs |}) ∧
    warnings evs = ["File is empty!"] ∧
    writer_calls evs = [] ∧ pvd_calls evs = [].
Proof.
  intros Hd Hne Hp Hmesh.
  exists (staging_events c ++ [ELog WARNING "File is empty!"]).
  split; [|done].
  rewrite run_spec, Hd. unfold run_trace.
  rewrite bool_decide_eq_false_2, Hp by done.
  unfold body_events, body_writes.
  assert (bool_decide (is_Some (node_block p))
          && bool_decide (is_Some (elem_block p)) = false) as ->; [|done].
  apply andb_false_iff.
  destruct Hmesh as [-> | ->]; [left|right];
    apply bool_decide_eq_false_2, is_Some_None.
Qed.


(** C5: with exactly one time value a run in XML mode writes one file,
    named after the staged path with [.frd] replaced by [.vtu], and no
    series index; in legacy mode no run writes a series index, whatever the
    input. *)
Theorem C5_no_series_index (c : Converter) (w : world) :
  (∀ data p,
     fmt c = "vtu" →
     files w !! file_path c = Some data →
     file_path c ≠ output_file c →
     parse_bytes data = Some p →
     is_Some (node_block p) → is_Some (elem_block p) →
     length (TimeSeries p) = 1 →
     ∃ t evs,
       TimeSeries p = [t] ∧
       let name := Str.replace ".frd" ".vtu" (output_file c) in
       run c w
       = (inr tt,
          {| files := <[name := vtu_bytes p name (Some t)]>
                        (<[output_file c := data]> (files w));
             dirs := {[output_folder c]} ∪ dirs w;
             events := events w ++ evs |}) ∧
       vtu_calls evs = [(p, name, Some t)] ∧ vtk_calls evs = [] ∧
       pvd_calls evs = []) ∧
  (fmt c = "vtk" →
   ∃ evs, events (run c w).2 = events w ++ evs ∧ pvd_calls evs = []).
Proof.
  split.
  - intros data p Hfmt Hd Hne Hp Hnode Helem HL.
    destruct (TimeSeries p) as [|t [|t' ts]] eqn:Hts; try discriminate.
    exists t, (staging_events c ++ body_events c p). split; [done|].
    cbv zeta. rewrite (run_parsed c w data p) by done.
    destruct (body_events_timed c p Hnode Helem) as [-> ->];
      [by rewrite Hts|].
    rewrite Hts, loop_events_vtu, loop_writes_vtu by done. simpl.
    unfold timed_name, increment_ext. rewrite Hfmt. simpl. done.
  - intros Hfmt. rewrite run_spec.
    pose proof (pvd_calls_run_trace c (files w !! file_path c)) as Hpvd.
    destruct (run_trace c (files w !! file_path c)) as [[r evs] ws].
    exists evs. split; [done|]. apply Hpvd. by rewrite Hfmt.
Qed.


(** C7: [run] depends on the world only through the content of the input
    file.  In two worlds that hold the same input, it ends the same way,
    makes the same calls with the same arguments and writes the same bytes
    to the same paths; run again on the world it has left, it leaves every
    file as it is. *)
Theorem C7_same_input_same_output (c : Converter) (w1 w2 : world) :
  files w1 !! file_path c = files w2 !! file_path c →
  ∃ r evs ws,
    run c w1 = (r, extend (with_dir (output_folder c) w1) evs ws) ∧
    run c w2 = (r, extend (with_dir (output_folder c) w2) evs ws) ∧
    (w2 = (run c w1).2 →
     files (run c w2).2 = files w2 ∧ dirs (run c w2).2 = dirs w2).
Proof.
  intros Hsame.
  destruct (run_trace c (files w1 !! file_path c)) as [[r evs] ws] eqn:Htrace.
  assert (∀ w, files w !! file_path c = files w1 !! file_path c →
               run c w = (r, extend (with_dir (output_folder c) w) evs ws))
    as Hrun.
  { intros w Hw. by rewrite run_spec, Hw, Htrace. }
  exists r, evs, ws. split; [by apply Hrun|]. split; [by apply Hrun|].
  intros ->. rewrite (Hrun w1 eq_refl) in Hsame |- *.
  rewrite (Hrun (r, extend (with_dir (output_folder c) w1) evs ws).2)
    by done.
  simpl. split.
  - apply write_all_idemp.
  - by rewrite (assoc_L (∪)), (idemp_L (∪)).
Qed.

(** C8: with a format other than [vtk] and [vtu], [main] prints the error
    message and nothing else happens before the cache is cleaned, whatever
    the file name; with one of the two, [main] builds the converter for the
    file name and runs it. *)
Theorem C8_format_gate (filename format : string) (w : world) :
  (format ≠ "vtk" → format ≠ "vtu" →
   main filename format w
   = (inr tt,
      {| files := files w; dirs := dirs w;
         events := events w ++ [EPrint (wrong_format_msg format);
                                ECleanCache] |})) ∧
  (format = "vtk" ∨ format = "vtu" →
   main filename format w
   = match __init__ filename format None with
     | inl e => (inl e, w)
     | inr c => (run c;; clean_cache) w
     end).
Proof.
  unfold main. split.
  - intros Hvtk Hvtu. rewrite bool_decide_eq_false_2.
    + unfold print, clean_cache.
      rewrite (bind_ok _ _ _ _ _ (emit_extend _ w)), emit_extend.
      rewrite extend_extend. done.
    + rewrite !elem_of_cons, elem_of_nil. tauto.
  - intros Hfmt. rewrite bool_decide_eq_true_2.
    + by destruct (__init__ filename format None).
    + rewrite !elem_of_cons. tauto.
Qed.

(** C9: on an input that exists, [run] first creates the output folder,
    copies the input to the staged path, which lies directly in that
    folder, and logs; the parser is then called on the staged path, in a
    world where that path holds the bytes of the input.  When the parse
    fails or has no node or element block, the staged copy is the only file
    the run has added. *)
Theorem C9_stage_then_parse (fp f : string) (folder : option string)
    (c : Converter) (w : world) (data : string) :
  __init__ fp f folder = inr c →
  files w !! file_path c = Some data →
  file_path c ≠ output_file c →
  let staged :=
    {| files := <[output_file c := data]> (files w);
       dirs := {[output_folder c]} ∪ dirs w;
       events := events w ++
         [EMakedirs (output_folder c);
          ECopy (file_path c) (output_file c);
          ELog INFO ("Parsing " +:+ relpath (output_file c))] |} in
  (os_makedirs (output_folder c);;
   shutil_copy (file_path c) (output_file c);;
   logging_info ("Parsing " +:+ relpath (output_file c))) w
  = (inr tt, staged) ∧
  run c w = (FRDParser_Parse (output_file c) ≫= run_from_parse c) staged ∧
  (∃ sep, (sep = "" ∨ sep = "/") ∧
     output_file c
     = output_folder c +:+ sep +:+ file_name c +:+ "." +:+ ext c) ∧
  FRDParser_Parse (output_file c) staged
  = match parse_bytes data with
    | Some p => (inr p, extend staged [EParse (output_file c)] [])
    | None => (inl MalformedFile, staged)
    end ∧
  (parse_bytes data = None → run c w = (inl MalformedFile, staged)) ∧
  (∀ p, parse_bytes data = Some p →
        node_block p = None ∨ elem_block p = None →
        run c w
        = (inr tt, extend staged [EParse (output_file c);
                                  ELog WARNING "File is empty!"] []) ∧
        files (run c w).2 !! output_file c = Some data).
Proof.
  intros Hinit Hd Hne staged.
  assert ((os_makedirs (output_folder c);;
           shutil_copy (file_path c) (output_file c);;
           logging_info ("Parsing " +:+ relpath (output_file c))) w
          = (inr tt, staged)) as Hstage.
  { rewrite (bind_ok _ _ _ _ _ (os_makedirs_extend _ w)).
    erewrite bind_ok; last first.
    { unfold shutil_copy. simpl. rewrite Hd, bool_decide_eq_false_2 by done.
      apply emit_write. }
    unfold logging_info. rewrite emit_extend, !extend_extend. done. }
  assert (FRDParser_Parse (output_file c) staged
          = match parse_bytes data with
            | Some p => (inr p, extend staged [EParse (output_file c)] [])
            | None => (inl MalformedFile, staged)
            end) as Hparse.
  { unfold FRDParser_Parse. simpl. rewrite lookup_insert_eq.
    destruct (parse_bytes data); [|done].
    by rewrite (bind_ok _ _ _ _ _ (emit_extend _ staged)). }
  assert (run c w = (FRDParser_Parse (output_file c) ≫= run_from_parse c) staged)
    as Hrun.
  { rewrite run_unfold.
    rewrite (bind_ok _ _ _ _ _ (os_makedirs_extend _ w)).
    erewrite bind_ok; last first.
    { unfold shutil_copy. simpl. rewrite Hd, bool_decide_eq_false_2 by done.
      apply emit_write. }
    unfold logging_info. erewrite bind_ok by apply emit_extend.
    by rewrite !extend_extend. }
  split; [done|]. split; [done|].
  split; [by eapply output_file_in_folder|]. split; [done|]. split.
  - intros Hnone. rewrite Hrun. apply bind_raise. by rewrite Hparse, Hnone.
  - intros p Hp Hmesh.
    assert (run c w
            = (inr tt, extend staged [EParse (output_file c);
                                      ELog WARNING "File is empty!"] []))
      as ->.
    { rewrite Hrun. rewrite Hp in Hparse.
      rewrite (bind_ok _ _ _ _ _ Hparse), run_from_parse_extend.
      rewrite extend_extend. unfold body_events, body_writes.
      assert (bool_decide (is_Some (node_block p))
              && bool_decide (is_Some (elem_block p)) = false) as ->; [|done].
      apply andb_false_iff.
      destruct Hmesh as [-> | ->]; [left|right];
        apply bool_decide_eq_false_2, is_Some_None. }
    split; [done|]. simpl. apply lookup_insert_eq.
Qed.

(** C10 (as amended): [__init__] keeps the first two dot-separated
    segments of the base name as name and extension and nothing of the
    others; the staged path is the output folder joined with name, dot,
    extension; every per-time file name is the staged path with each
    [.frd] replaced by the suffix of its increment; so when the staged
    path contains no [.frd], every per-time file name is the staged path
    itself. *)
Theorem C10_names_replace_frd (fp f : string) (folder : option string)
    (c : Converter) :
  __init__ fp f folder = inr c →
  f = "vtk" ∨ f = "vtu" →
  (∃ name e rest,
     Str.split "." (Path.basename fp) = name :: e :: rest ∧
     c = {| file_path := fp; file_name := name; _output_folder := folder;
            ext := e; fmt := f |}) ∧
  output_file c = Path.join (output_folder c) (file_name c +:+ "." +:+ ext c) ∧
  (∀ (w : world) (data : string) (p : FRD),
     files w !! fp = Some data → fp ≠ output_file c →
     parse_bytes data = Some p →
     is_Some (node_block p) → is_Some (elem_block p) →
     let L := length (TimeSeries p) in
     ∃ evs,
       events (run c w).2 = events w ++ evs ∧
       timed_calls evs
       = (λ it, (p, it.2, it.1)) <$>
           zip (TimeSeries p)
               ((λ k, Str.replace ".frd" (increment_ext c L k) (output_file c))
                  <$> seq 1 L) ∧
       (Str.contains ".frd" (output_file c) = false →
        ∀ call, call ∈ timed_calls evs → call.1.2 = output_file c)).
Proof.
  intros Hinit Hf.
  pose proof (init_fields _ _ _ _ Hinit) as (Hfp & Hfmt & Hfolder & rest & Hsplit).
  split; [|split; [done|]].
  - exists (file_name c), (ext c), rest. split; [done|].
    destruct c; simpl in *. by subst.
  - intros w data p Hd Hne Hp Hnode Helem L. rewrite <- Hfp in Hd, Hne.
    rewrite <- Hfmt in Hf.
    exists (staging_events c ++ body_events c p).
    rewrite (run_parsed c w data p) by done. split; [done|].
    assert (timed_calls (staging_events c ++ body_events c p)
            = (λ it, (p, it.2, it.1)) <$>
                zip (TimeSeries p) (timed_names c L)) as Hcalls.
    { destruct (decide (L = 0)) as [Hnil|Hnz].
      - unfold body_events. fold L.
        rewrite !bool_decide_eq_true_2 by done.
        rewrite bool_decide_eq_false_2 by (intros Hl; by apply Hl).
        apply length_zero_iff_nil in Hnil. rewrite Hnil. simpl.
        unfold writer_events. by destruct Hf as [-> | ->].
      - destruct (body_events_timed c p Hnode Helem Hnz) as [-> _].
        fold L. unfold timed_calls. split_timed_events.
        fold (timed_calls
                (loop_events c p (zip (TimeSeries p) (timed_names c L)))).
        rewrite timed_calls_loop by done.
        destruct (bool_decide _ && bool_decide _); by rewrite app_nil_r. }
    split; [exact Hcalls|].
    intros Habsent [[p' n] t]. rewrite Hcalls.
    intros ([t' n'] & [= -> -> ->] & Hin)%list_elem_of_fmap. simpl.
    apply elem_of_zip_r in Hin. unfold timed_names in Hin.
    apply list_elem_of_fmap in Hin as (k & -> & _).
    unfold timed_name. by apply StrFacts.replace_absent.
Qed.

End claims.

(** C1: the code misses the claim. The names of the increments and of the
    series index are the staged path with [.frd] replaced, and the staged
    path ends in the second dot-separated segment of the base name. For the
    file [job/beam.v2.frd] with the time values 2 and 5, a run in XML mode
    stages [job/results/beam.v2], finds no [.frd] in it and calls the
    writer twice and the index writer once on that very path: it does not
    produce two files with increments and an index. The same happens for
    [job/model.dat]. *)
Theorem C1_series_on_one_path :
  (let c := converter_of "job/beam.v2.frd" "vtu" in
   let w := one_file "job/beam.v2.frd" "two steps" in
   __init__ "job/beam.v2.frd" "vtu" None = inr c ∧
   files w !! file_path c = Some "two steps" ∧
   file_path c ≠ output_file (H := sample) c ∧
   parse_bytes (Collaborators := sample) "two steps" = Some two_steps ∧
   is_Some (node_block two_steps) ∧ is_Some (elem_block two_steps) ∧
   TimeSeries two_steps = [2; 5]%Z ∧
   (run (H := sample) c w).1 = inr tt ∧
   vtu_calls (events (run (H := sample) c w).2)
   = [(two_steps, "job/results/beam.v2", Some 2%Z);
      (two_steps, "job/results/beam.v2", Some 5%Z)] ∧
   pvd_calls (events (run (H := sample) c w).2)
   = [("job/results/beam.v2",
       [(2%Z, "job/results/beam.v2"); (5%Z, "job/results/beam.v2")])] ∧
   ¬ produces_xml_series (H := sample) c w two_steps) ∧
  (let c := converter_of "job/model.dat" "vtu" in
   let w := one_file "job/model.dat" "two steps" in
   __init__ "job/model.dat" "vtu" None = inr c ∧
   files w !! file_path c = Some "two steps" ∧
   file_path c ≠ output_file (H := sample) c ∧
   parse_bytes (Collaborators := sample) "two steps" = Some two_steps ∧
   is_Some (node_block two_steps) ∧ is_Some (elem_block two_steps) ∧
   TimeSeries two_steps = [2; 5]%Z ∧
   (run (H := sample) c w).1 = inr tt ∧
   vtu_calls (events (run (H := sample) c w).2)
   = [(two_steps, "job/results/model.dat", Some 2%Z);
      (two_steps, "job/results/model.dat", Some 5%Z)] ∧
   pvd_calls (events (run (H := sample) c w).2)
   = [("job/results/model.dat",
       [(2%Z, "job/results/model.dat"); (5%Z, "job/results/model.dat")])] ∧
   ¬ produces_xml_series (H := sample) c w two_steps).
Proof.
  cbv zeta. split.
  - repeat split; try (by eexists); try (vm_compute; lia).
    + vm_compute. discriminate.
    + intros (names & index & evs & w' & Hrun & Hev & Hcalls & _ & Hlen
              & Hnd & _).
      erewrite run_parsed in Hrun; [|reflexivity|by vm_compute|reflexivity].
      injection Hrun as <-. simpl in Hev. subst evs.
      destruct names as [|n1 [|n2 [|n3 names]]]; try discriminate.
      vm_compute in Hcalls. injection Hcalls as <- <-.
      apply NoDup_cons in Hnd as [Hnd _]. apply Hnd. left.
  - repeat split; try (by eexists); try (vm_compute; lia).
    + vm_compute. discriminate.
    + intros (names & index & evs & w' & Hrun & Hev & Hcalls & _ & Hlen
              & Hnd & _).
      erewrite run_parsed in Hrun; [|reflexivity|by vm_compute|reflexivity].
      injection Hrun as <-. simpl in Hev. subst evs.
      destruct names as [|n1 [|n2 [|n3 names]]]; try discriminate.
      vm_compute in Hcalls. injection Hcalls as <- <-.
      apply NoDup_cons in Hnd as [Hnd _]. apply Hnd. left.
Qed.

(** C2 at a sample input: a mesh without result blocks, legacy format. *)
Lemma C2_witness :
  ∃ evs bytes,
    run (H := sample) (converter_of "job/model.frd" "vtk")
      (one_file "job/model.frd" "mesh")
    = (inr tt,
       {| files := <["job/results/model.vtk" := bytes]>
                     (<["job/results/model.frd" := "mesh"]>
                        {["job/model.frd" := "mesh"]});
          dirs := {["job/results"]} ∪ ∅;
          events := [] ++ evs |}) ∧
    warnings evs = ["No time increments!"] ∧
    writer_calls evs = [(mesh_only, "job/results/model.vtk", None)] ∧
    pvd_calls evs = [] ∧
    ("vtk" = "vtk" →
     vtk_calls evs = [(mesh_only, "job/results/model.vtk", None)] ∧
     bytes = "vtk job/results/model.vtk") ∧
    ("vtk" = "vtu" →
     vtu_calls evs = [(mesh_only, "job/results/model.vtk", None)] ∧
     bytes = "vtu job/results/model.vtk").
Proof.
  apply (C2_no_increment_single_output (H := sample)
           (converter_of "job/model.frd" "vtk")
           (one_file "job/model.frd" "mesh") "mesh" mesh_only).
  - left. reflexivity.
  - reflexivity.
  - vm_compute. discriminate.
  - reflexivity.
  - by eexists.
  - by eexists.
  - reflexivity.
Defined.

(** C3 at a sample input: a file whose parse has no node block. *)
Lemma C3_witness :
  ∃ evs,
    run (H := sample) (converter_of "job/model.frd" "vtk")
      (one_file "job/model.frd" "no nodes")
    = (inr tt,
       {| files := <["job/results/model.frd" := "no nodes"]>
                     {["job/model.frd" := "no nodes"]};
          dirs := {["job/results"]} ∪ ∅;
          events := [] ++ evs |}) ∧
    warnings evs = ["File is empty!"] ∧
    writer_calls evs = [] ∧ pvd_calls evs = [].
Proof.
  apply (C3_empty_mesh_no_output (H := sample)
           (converter_of "job/model.frd" "vtk")
           (one_file "job/model.frd" "no nodes") "no nodes"
           {| node_block := None; elem_block := elem_block mesh_only;
              result_blocks := [block 1 "DISP" 3] |}).
  - reflexivity.
  - vm_compute. discriminate.
  - reflexivity.
  - left. reflexivity.
Defined.

(** C4: the code misses the claim. The increment reaches a file name only
    where the staged path holds [.frd]. For the file [job/beam.v2.frd] with
    two time values the staged path is [job/results/beam.v2], and the
    writer is called twice on that path: no name carries an increment. The
    same happens for [job/model.dat]. *)
Theorem C4_increment_missing :
  (let c := converter_of "job/beam.v2.frd" "vtk" in
   let w := one_file "job/beam.v2.frd" "two steps" in
   __init__ "job/beam.v2.frd" "vtk" None = inr c ∧
   files w !! file_path c = Some "two steps" ∧
   file_path c ≠ output_file (H := sample) c ∧
   parse_bytes (Collaborators := sample) "two steps" = Some two_steps ∧
   is_Some (node_block two_steps) ∧ is_Some (elem_block two_steps) ∧
   length (TimeSeries two_steps) = 2 ∧
   (run (H := sample) c w).1 = inr tt ∧
   writer_calls (events (run (H := sample) c w).2)
   = [(two_steps, "job/results/beam.v2", Some 2%Z);
      (two_steps, "job/results/beam.v2", Some 5%Z)] ∧
   ¬ names_carry_increment (H := sample) c w two_steps) ∧
  (let c := converter_of "job/model.dat" "vtk" in
   let w := one_file "job/model.dat" "two steps" in
   __init__ "job/model.dat" "vtk" None = inr c ∧
   files w !! file_path c = Some "two steps" ∧
   file_path c ≠ output_file (H := sample) c ∧
   parse_bytes (Collaborators := sample) "two steps" = Some two_steps ∧
   is_Some (node_block two_steps) ∧ is_Some (elem_block two_steps) ∧
   length (TimeSeries two_steps) = 2 ∧
   (run (H := sample) c w).1 = inr tt ∧
   writer_calls (events (run (H := sample) c w).2)
   = [(two_steps, "job/results/model.dat", Some 2%Z);
      (two_steps, "job/results/model.dat", Some 5%Z)] ∧
   ¬ names_carry_increment (H := sample) c w two_steps).
Proof.
  cbv zeta. split.
  - repeat split; try (by eexists); try (vm_compute; lia).
    + vm_compute. discriminate.
    + intros (names & evs & w' & Hrun & Hev & Hlen & Hcalls & _ & _
              & Hsuffix & _).
      erewrite run_parsed in Hrun; [|reflexivity|by vm_compute|reflexivity].
      injection Hrun as <-. simpl in Hev. subst evs.
      destruct names as [|n1 [|n2 [|n3 names]]]; try discriminate.
      vm_compute in Hcalls. injection Hcalls as <- <-.
      destruct (Hsuffix ltac:(vm_compute; lia) 0 _ eq_refl) as (_ & _ & Hend).
      vm_compute in Hend. discriminate.
  - repeat split; try (by eexists); try (vm_compute; lia).
    + vm_compute. discriminate.
    + intros (names & evs & w' & Hrun & Hev & Hlen & Hcalls & _ & _
              & Hsuffix & _).
      erewrite run_parsed in Hrun; [|reflexivity|by vm_compute|reflexivity].
      injection Hrun as <-. simpl in Hev. subst evs.
      destruct names as [|n1 [|n2 [|n3 names]]]; try discriminate.
      vm_compute in Hcalls. injection Hcalls as <- <-.
      destruct (Hsuffix ltac:(vm_compute; lia) 0 _ eq_refl) as (_ & _ & Hend).
      vm_compute in Hend. discriminate.
Qed.

(** C5 at sample inputs: one time value in XML mode, two in legacy mode. *)
Lemma C5_witness :
  (∃ t evs,
     TimeSeries one_step = [t] ∧
     run (H := sample) (converter_of "job/model.frd" "vtu")
       (one_file "job/model.frd" "one step")
     = (inr tt,
        {| files := <["job/results/model.vtu" := "vtu job/results/model.vtu"]>
                      (<["job/results/model.frd" := "one step"]>
                         {["job/model.frd" := "one step"]});
           dirs := {["job/results"]} ∪ ∅;
           events := [] ++ evs |}) ∧
     vtu_calls evs = [(one_step, "job/results/model.vtu", Some t)] ∧
     vtk_calls evs = [] ∧ pvd_calls evs = []) ∧
  (∃ evs,
     events (run (H := sample) (converter_of "job/model.frd" "vtk")
               (one_file "job/model.frd" "two steps")).2 = [] ++ evs ∧
     pvd_calls evs = []).
Proof.
  split.
  - apply (proj1 (C5_no_series_index (H := sample)
                    (converter_of "job/model.frd" "vtu")
                    (one_file "job/model.frd" "one step"))
             "one step" one_step).
    + reflexivity.
    + reflexivity.
    + vm_compute. discriminate.
    + reflexivity.
    + by eexists.
    + by eexists.
    + reflexivity.
  - apply (proj2 (C5_no_series_index (H := sample)
                    (converter_of "job/model.frd" "vtk")
                    (one_file "job/model.frd" "two steps"))).
    reflexivity.
Defined.

(** C6: the code misses the claim. The series has one entry per distinct
    time value, but the files are as many only where the staged path holds
    [.frd]. For the file [job/beam.v2.frd] the result blocks have the two
    time values 2 and 5, and both are written to [job/results/beam.v2]: one
    file for two distinct time values. The same happens for
    [job/model.dat]. *)
Theorem C6_two_times_one_file :
  (let c := converter_of "job/beam.v2.frd" "vtk" in
   let w := one_file "job/beam.v2.frd" "two steps" in
   __init__ "job/beam.v2.frd" "vtk" None = inr c ∧
   files w !! file_path c = Some "two steps" ∧
   file_path c ≠ output_file (H := sample) c ∧
   parse_bytes (Collaborators := sample) "two steps" = Some two_steps ∧
   is_Some (node_block two_steps) ∧ is_Some (elem_block two_steps) ∧
   size (list_to_set (C := gset Z) (value <$> result_blocks two_steps)) = 2 ∧
   (run (H := sample) c w).1 = inr tt ∧
   timed_calls (events (run (H := sample) c w).2)
   = [(two_steps, "job/results/beam.v2", 2%Z);
      (two_steps, "job/results/beam.v2", 5%Z)] ∧
   ¬ one_file_per_time_value (H := sample) c w two_steps) ∧
  (let c := converter_of "job/model.dat" "vtk" in
   let w := one_file "job/model.dat" "two steps" in
   __init__ "job/model.dat" "vtk" None = inr c ∧
   files w !! file_path c = Some "two steps" ∧
   file_path c ≠ output_file (H := sample) c ∧
   parse_bytes (Collaborators := sample) "two steps" = Some two_steps ∧
   is_Some (node_block two_steps) ∧ is_Some (elem_block two_steps) ∧
   size (list_to_set (C := gset Z) (value <$> result_blocks two_steps)) = 2 ∧
   (run (H := sample) c w).1 = inr tt ∧
   timed_calls (events (run (H := sample) c w).2)
   = [(two_steps, "job/results/model.dat", 2%Z);
      (two_steps, "job/results/model.dat", 5%Z)] ∧
   ¬ one_file_per_time_value (H := sample) c w two_steps).
Proof.
  cbv zeta. split.
  - repeat split; try (by eexists); try (vm_compute; lia).
    + vm_compute. discriminate.
    + intros (names & evs & w' & Hrun & Hev & Hcalls & Hlen & Hnd & _).
      erewrite run_parsed in Hrun; [|reflexivity|by vm_compute|reflexivity].
      injection Hrun as <-. simpl in Hev. subst evs.
      destruct names as [|n1 [|n2 [|n3 names]]]; try discriminate.
      vm_compute in Hcalls. injection Hcalls as <- <-.
      apply NoDup_cons in Hnd as [Hnd _]. apply Hnd. left.
  - repeat split; try (by eexists); try (vm_compute; lia).
    + vm_compute. discriminate.
    + intros (names & evs & w' & Hrun & Hev & Hcalls & Hlen & Hnd & _).
      erewrite run_parsed in Hrun; [|reflexivity|by vm_compute|reflexivity].
      injection Hrun as <-. simpl in Hev. subst evs.
      destruct names as [|n1 [|n2 [|n3 names]]]; try discriminate.
      vm_compute in Hcalls. injection Hcalls as <- <-.
      apply NoDup_cons in Hnd as [Hnd _]. apply Hnd. left.
Qed.

(** C7 at a sample input: the world left by a first run still holds the
    input, and a second run leaves its files and folders as they are. *)
Lemma C7_witness :
  let c := converter_of "job/model.frd" "vtu" in
  let w1 := one_file "job/model.frd" "two steps" in
  let w2 := (run (H := sample) c w1).2 in
  files w1 !! file_path c = files w2 !! file_path c ∧
  (run (H := sample) c w2).1 = (run (H := sample) c w1).1 ∧
  files (run (H := sample) c w2).2 = files w2 ∧
  dirs (run (H := sample) c w2).2 = dirs w2.
Proof.
  cbv zeta.
  assert (files (one_file "job/model.frd" "two steps")
            !! file_path (converter_of "job/model.frd" "vtu")
          = files (run (H := sample) (converter_of "job/model.frd" "vtu")
                     (one_file "job/model.frd" "two steps")).2
              !! file_path (converter_of "job/model.frd" "vtu")) as Hsame.
  { vm_compute. reflexivity. }
  destruct (C7_same_input_same_output (H := sample)
              (converter_of "job/model.frd" "vtu")
              (one_file "job/model.frd" "two steps") _ Hsame)
    as (r & evs & ws & Hrun1 & Hrun2 & Hagain).
  split; [exact Hsame|]. split; [by rewrite Hrun2, Hrun1|].
  exact (Hagain eq_refl).
Defined.

(** C8 at sample inputs: an unknown format, and [vtk]. *)
Lemma C8_witness :
  main (H := sample) "job/model.frd" "xdmf" (one_file "job/model.frd" "mesh")
  = (inr tt,
     {| files := {["job/model.frd" := "mesh"]}; dirs := ∅;
        events := [] ++ [EPrint (wrong_format_msg "xdmf"); ECleanCache] |}) ∧
  main (H := sample) "job/model.frd" "vtk" (one_file "job/model.frd" "mesh")
  = (run (H := sample) (converter_of "job/model.frd" "vtk");; clean_cache)
      (one_file "job/model.frd" "mesh").
Proof.
  split.
  - apply (proj1 (C8_format_gate (H := sample) "job/model.frd" "xdmf"
                    (one_file "job/model.frd" "mesh"))); discriminate.
  - apply (proj2 (C8_format_gate (H := sample) "job/model.frd" "vtk"
                    (one_file "job/model.frd" "mesh"))).
    left. reflexivity.
Defined.

(** C9 at a sample input: a file whose parse has no node block. *)
Lemma C9_witness :
  files (run (H := sample) (converter_of "job/model.frd" "vtk")
           (one_file "job/model.frd" "no nodes")).2
    !! "job/results/model.frd" = Some "no nodes".
Proof.
  pose proof (C9_stage_then_parse (H := sample) "job/model.frd" "vtk" None
                (converter_of "job/model.frd" "vtk")
                (one_file "job/model.frd" "no nodes") "no nodes"
                eq_refl eq_refl) as Hstage.
  cbv zeta in Hstage.
  destruct Hstage as (_ & _ & _ & _ & _ & Hempty); [vm_compute; discriminate|].
  apply (Hempty {| node_block := None; elem_block := elem_block mesh_only;
                   result_blocks := [block 1 "DISP" 3] |}).
  - reflexivity.
  - left. reflexivity.
Defined.

(** C10 at a sample input: [job/a.b.c] keeps [a] and [b], and its one
    time value is written to the staged path [job/results/a.b]. *)
Lemma C10_witness :
  ∃ evs,
    events (run (H := sample) (converter_of "job/a.b.c" "vtk")
              (one_file "job/a.b.c" "one step")).2 = [] ++ evs ∧
    timed_calls evs = [(one_step, "job/results/a.b", 7%Z)].
Proof.
  pose proof (C10_names_replace_frd (H := sample) "job/a.b.c" "vtk" None
                (converter_of "job/a.b.c" "vtk") eq_refl
                (or_introl eq_refl)) as (_ & _ & Hrun).
  destruct (Hrun (one_file "job/a.b.c" "one step") "one step" one_step)
    as (evs & Hev & Hcalls & _).
  - reflexivity.
  - vm_compute. discriminate.
  - reflexivity.
  - by eexists.
  - by eexists.
  - exists evs. split; [exact Hev|]. rewrite Hcalls. reflexivity.
Defined.

(** C10 as stated fails for an extension that merely starts with [frd]:
    for [job/model.frdx] the extension is [frdx], yet the one time value
    is written to [job/results/model.vtkx], not to the staged path
    [job/results/model.frdx]. *)
Lemma C10_counterexample :
  let c := converter_of "job/model.frdx" "vtk" in
  let w := one_file "job/model.frdx" "one step" in
  __init__ "job/model.frdx" "vtk" None = inr c ∧
  ext c ≠ "frd" ∧
  output_file (H := sample) c = "job/results/model.frdx" ∧
  timed_calls (events (run (H := sample) c w).2)
  = [(one_step, "job/results/model.vtkx", 7%Z)] ∧
  "job/results/model.vtkx" ≠ output_file (H := sample) c.
Proof.
  cbv zeta. repeat split; try reflexivity; vm_compute; discriminate.
Qed.

(** A [.frd] file whose base name has a further dot: [__init__] keeps
    [beam] and [v2], the staged path is [job/results/beam.v2], and with the
    time values 2 and 5 both increments and the series index are written to
    that one path. *)
Example multi_dot_frd_run :
  let c := converter_of "job/beam.v2.frd" "vtu" in
  let w := one_file "job/beam.v2.frd" "two steps" in
  __init__ "job/beam.v2.frd" "vtu" None = inr c ∧
  file_name c = "beam" ∧ ext c = "v2" ∧
  output_file (H := sample) c = "job/results/beam.v2" ∧
  vtu_calls (events (run (H := sample) c w).2)
  = [(two_steps, "job/results/beam.v2", Some 2%Z);
     (two_steps, "job/results/beam.v2", Some 5%Z)] ∧
  pvd_calls (events (run (H := sample) c w).2)
  = [("job/results/beam.v2",
      [(2%Z, "job/results/beam.v2"); (5%Z, "job/results/beam.v2")])].
Proof. cbv zeta. repeat split; reflexivity. Qed.

(** * Further properties of the driver *)

(** ** More on strings and paths *)

Module TextFacts.
Import Str StrFacts.

Local Arguments Ascii.eqb : simpl never.

Lemma has_char_app c s t : has_char c (s +:+ t) = has_char c s || has_char c t.
Proof.
  induction s as [|a s IH]; [done|]. rewrite sapp_cons. simpl.
  by rewrite IH, orb_assoc.
Qed.

(** Without the separator, [split] returns the string alone. *)
Lemma split_absent c s : has_char c s = false → split c s = [s].
Proof.
  induction s as [|a s IH]; [done|]. simpl.
  intros [Ha Hs]%orb_false_iff. by rewrite Ha, IH.
Qed.

Lemma split_nonempty c s : split c s ≠ [].
Proof.
  destruct s as [|a s]; [done|]. simpl.
  destruct (Ascii.eqb a c); [done|]. by destruct (split c s).
Qed.

(** With the separator, [split] returns at least two segments. *)
Lemma split_present c s :
  has_char c s = true → ∃ seg0 seg1 rest, split c s = seg0 :: seg1 :: rest.
Proof.
  induction s as [|a s IH]; [done|]. simpl.
  destruct (Ascii.eqb a c) eqn:Ha; simpl.
  - intros _. pose proof (split_nonempty c s) as Hne.
    destruct (split c s) as [|seg segs]; [done|].
    by exists "", seg, segs.
  - intros (seg0 & seg1 & rest & ->)%IH. by exists (String a seg0), seg1, rest.
Qed.

Lemma concat_cons sep x y l :
  String.concat sep (x :: y :: l) = x +:+ sep +:+ String.concat sep (y :: l).
Proof. reflexivity. Qed.

(** Joining the segments with the separator gives the string back. *)
Lemma concat_split c s : String.concat (String c "") (split c s) = s.
Proof.
  induction s as [|a s IH]; [done|]. simpl.
  pose proof (split_nonempty c s) as Hne.
  destruct (Ascii.eqb_spec a c) as [->|Hac].
  - destruct (split c s) as [|seg segs]; [done|].
    by rewrite concat_cons, IH.
  - destruct (split c s) as [|seg [|seg' segs]]; [done|..].
    + simpl in *. by rewrite IH.
    + rewrite concat_cons in *. by rewrite sapp_cons, IH.
Qed.

(** No segment contains the separator, nor a character the string lacks. *)
Lemma split_segments c d s seg :
  seg ∈ split c s →
  has_char c seg = false ∧ (has_char d s = false → has_char d seg = false).
Proof.
  revert seg. induction s as [|a s IH]; intros seg.
  - simpl. by intros ->%list_elem_of_singleton.
  - simpl. destruct (Ascii.eqb a c) eqn:Ha.
    + intros [->|Hin]%elem_of_cons; [done|].
      destruct (IH seg Hin) as [? Hd]. split; [done|].
      intros [_ ?]%orb_false_iff. auto.
    + pose proof (split_nonempty c s) as Hne.
      destruct (split c s) as [|seg0 segs]; [done|].
      intros [->|Hin]%elem_of_cons.
      * destruct (IH seg0) as [? Hd]; [left|]. simpl. rewrite Ha. split; [done|].
        intros [-> ?]%orb_false_iff. auto.
      * destruct (IH seg) as [? Hd]; [by right|]. split; [done|].
        intros [_ ?]%orb_false_iff. auto.
Qed.

(** A separator after a part that lacks it ends the first segment. *)
Lemma split_app c s t :
  has_char c s = false → split c (s +:+ String c t) = s :: split c t.
Proof.
  induction s as [|a s IH]; simpl.
  - intros _. by rewrite Ascii.eqb_refl.
  - intros [Ha Hs]%orb_false_iff. by rewrite Ha, IH.
Qed.

Lemma snoc_cases s : s = "" ∨ ∃ s0 x, s = s0 +:+ String x "".
Proof.
  induction s as [|a s IH]; [by left|]. right.
  destruct IH as [->|(s0 & x & ->)].
  - by exists "", a.
  - by exists (String a s0), x.
Qed.

Lemma endswith_snoc c s x :
  endswith (String c "") (s +:+ String x "") = Ascii.eqb x c.
Proof.
  unfold endswith. rewrite slength_app. simpl String.length.
  replace (String.length s + 1 - 1) with (String.length s) by lia.
  rewrite drop_app_length.
  replace (1 <=? String.length s + 1) with true
    by (symmetry; apply Nat.leb_le; lia).
  rewrite andb_true_l. destruct (Ascii.eqb_spec x c) as [->|Hne].
  - apply String.eqb_refl.
  - apply String.eqb_neq. congruence.
Qed.

(** [s[:-n]] removes a final part of [n] characters. *)
Lemma drop_last_app s t : drop_last (String.length t) (s +:+ t) = s.
Proof.
  unfold drop_last. rewrite slength_app.
  replace (String.length s + String.length t - String.length t)
    with (String.length s) by lia.
  induction s as [|a s IH]; simpl.
  - by destruct t.
  - by rewrite IH.
Qed.

Lemma length_take k s :
  String.length (take k s) = k `min` String.length s.
Proof.
  revert s. induction k as [|k IH]; intros [|a s]; simpl; [done..|].
  by rewrite IH.
Qed.

Lemma length_drop_last k s :
  String.length (drop_last k s) = String.length s - k.
Proof. unfold drop_last. rewrite length_take. lia. Qed.

End TextFacts.

Module PathMore.
Import Str StrFacts TextFacts.

Local Arguments Ascii.eqb : simpl never.

Lemma rcut_absent b : has_char "/" b = false → Path.rcut b = ("", b).
Proof.
  induction b as [|a b IH]; [done|]. simpl.
  intros [Ha Hb]%orb_false_iff. by rewrite IH, Ha.
Qed.

(** The cut falls after the last slash. *)
Lemma rcut_app a b :
  has_char "/" b = false → Path.rcut (a +:+ "/" +:+ b) = (a +:+ "/", b).
Proof.
  intros Hb. induction a as [|x a IH].
  - rewrite sapp_nil_l, sapp_cons, sapp_nil_l. simpl.
    by rewrite rcut_absent.
  - rewrite sapp_cons. cbn [Path.rcut]. rewrite IH.
    by destruct a.
Qed.

Lemma rcut_tail_no_sep p : has_char "/" (Path.rcut p).2 = false.
Proof.
  induction p as [|a p IH]; [done|]. simpl.
  destruct (Path.rcut p) as [[|b h] t]; simpl in *; [|done].
  destruct (Ascii.eqb a "/") eqn:Ha; simpl; [done|]. by rewrite Ha.
Qed.

Lemma basename_no_sep p : has_char "/" (Path.basename p) = false.
Proof.
  unfold Path.basename, Path.split. pose proof (rcut_tail_no_sep p) as Ht.
  by destruct (Path.rcut p).
Qed.

Lemma rstrip_snoc s x :
  x ≠ "/"%char → Path.rstrip_sep (s +:+ String x "") = s +:+ String x "".
Proof.
  intros Hx. induction s as [|a s IH].
  - simpl. by destruct (Ascii.eqb_spec x "/").
  - rewrite sapp_cons. cbn [Path.rstrip_sep]. rewrite IH. by destruct s.
Qed.

Lemma rstrip_app_sep s : Path.rstrip_sep (s +:+ "/") = Path.rstrip_sep s.
Proof.
  induction s as [|a s IH]; [done|].
  rewrite sapp_cons. cbn [Path.rstrip_sep]. by rewrite IH.
Qed.

Lemma not_all_sep s x t n :
  x ≠ "/"%char → s +:+ String x t ≠ repeat_char "/" n.
Proof.
  intros Hx. revert n. induction s as [|a s IH]; intros [|n]; try done.
  - rewrite sapp_nil_l. simpl. congruence.
  - rewrite sapp_cons. simpl. intros [= _ Heq]. by eapply IH.
Qed.

(** [split] undoes a [join] with a slash-free last part. *)
Lemma split_join s x b :
  x ≠ "/"%char → has_char "/" b = false →
  Path.split ((s +:+ String x "") +:+ "/" +:+ b) = (s +:+ String x "", b).
Proof.
  intros Hx Hb. unfold Path.split. rewrite rcut_app by done.
  rewrite bool_decide_eq_true_2.
  - by rewrite rstrip_app_sep, rstrip_snoc.
  - split.
    + rewrite sapp_assoc. by destruct s.
    + rewrite sapp_assoc. by apply not_all_sep.
Qed.

Lemma startswith_sep_has_char b :
  has_char "/" b = false → startswith "/" b = false.
Proof.
  destruct b as [|a b]; [done|]. simpl. intros [Ha _]%orb_false_iff.
  by rewrite Ascii.eqb_sym, Ha.
Qed.

(** [join] puts one slash after a part that does not end with one. *)
Lemma join_plain s x b :
  x ≠ "/"%char → startswith "/" b = false →
  Path.join (s +:+ String x "") b = (s +:+ String x "") +:+ "/" +:+ b.
Proof.
  intros Hx Hb. unfold Path.join. rewrite Hb, endswith_snoc.
  rewrite bool_decide_eq_false_2 by (by destruct s).
  by destruct (Ascii.eqb_spec x "/").
Qed.

End PathMore.

(** ** The constructor and the two paths *)

Section converter_facts.
Context `{Collaborators}.
Import Str StrFacts TextFacts PathMore.

Lemma init_ok_of_dot fp f folder :
  has_char "." (Path.basename fp) = true → ∃ c, __init__ fp f folder = inr c.
Proof.
  intros (seg0 & seg1 & rest & Hsplit)%split_present.
  unfold __init__. fold (Path.basename fp). rewrite Hsplit. by eexists.
Qed.

(** X1: [__init__] raises [IndexError] exactly when the base name of the
    path has no dot; otherwise it returns a converter. *)
Theorem init_IndexError_iff_no_dot (fp f : string) (folder : option string) :
  (__init__ fp f folder = inl IndexError
   ↔ has_char "." (Path.basename fp) = false) ∧
  ((∃ c, __init__ fp f folder = inr c)
   ↔ has_char "." (Path.basename fp) = true).
Proof.
  unfold __init__. fold (Path.basename fp).
  destruct (has_char "." (Path.basename fp)) eqn:Hdot.
  - apply split_present in Hdot as (seg0 & seg1 & rest & ->). simpl.
    split; split; try done. by eexists.
  - rewrite split_absent by done. simpl.
    split; split; try done. by intros [??].
Qed.

Lemma init_base_no_sep fp f folder c :
  __init__ fp f folder = inr c →
  has_char "/" (file_name c +:+ "." +:+ ext c) = false.
Proof.
  intros (_ & _ & _ & rest & Hsplit)%init_fields.
  pose proof (basename_no_sep fp) as Hsep.
  destruct (split_segments "." "/" (Path.basename fp) (file_name c)) as [_ H0];
    [rewrite Hsplit; left|].
  destruct (split_segments "." "/" (Path.basename fp) (ext c)) as [_ H1];
    [rewrite Hsplit; right; left|].
  by rewrite !has_char_app, H0, H1.
Qed.

(** X2: a converter built by [__init__] keeps the path, the format and the
    folder it was given; its name and extension contain neither a dot nor
    a slash, and the base name of the path is the name, a dot, the
    extension and then the dot-separated segments that were dropped. *)
Theorem init_keeps_two_segments (fp f : string) (folder : option string)
    (c : Converter) :
  __init__ fp f folder = inr c →
  file_path c = fp ∧ fmt c = f ∧ _output_folder c = folder ∧
  has_char "." (file_name c) = false ∧ has_char "." (ext c) = false ∧
  has_char "/" (file_name c) = false ∧ has_char "/" (ext c) = false ∧
  ∃ rest,
    Path.basename fp = String.concat "." (file_name c :: ext c :: rest).
Proof.
  intros (Hfp & Hf & Hfolder & rest & Hsplit)%init_fields.
  pose proof (basename_no_sep fp) as Hsep.
  assert (file_name c ∈ Str.split "." (Path.basename fp)) as H0
    by (rewrite Hsplit; left).
  assert (ext c ∈ Str.split "." (Path.basename fp)) as H1
    by (rewrite Hsplit; right; left).
  destruct (split_segments "." "/" _ _ H0) as [? Hs0].
  destruct (split_segments "." "/" _ _ H1) as [? Hs1].
  repeat split; auto.
  exists rest. by rewrite <- Hsplit, concat_split.
Qed.

Lemma plain_base n e :
  has_char "." n = false → has_char "/" n = false →
  has_char "." e = false → has_char "/" e = false →
  has_char "/" (n +:+ "." +:+ e) = false ∧
  Str.split "." (n +:+ "." +:+ e) = [n; e] ∧
  Str.startswith "/" (n +:+ "." +:+ e) = false.
Proof.
  intros Hn1 Hn2 He1 He2.
  assert (has_char "/" (n +:+ "." +:+ e) = false) as Hbase
    by (by rewrite !has_char_app, Hn2, He2).
  split; [done|]. split; [|by apply startswith_sep_has_char].
  change (n +:+ "." +:+ e) with (n +:+ String "."%char e).
  rewrite split_app by done. by rewrite split_absent.
Qed.

Lemma init_in_folder d n e f :
  has_char "." n = false → has_char "/" n = false →
  has_char "." e = false → has_char "/" e = false →
  d ≠ "" → Str.endswith "/" d = false →
  let c := {| file_path := d +:+ "/" +:+ n +:+ "." +:+ e; file_name := n;
              _output_folder := None; ext := e; fmt := f |} in
  __init__ (d +:+ "/" +:+ n +:+ "." +:+ e) f None = inr c ∧
  output_folder c = d +:+ "/results" ∧
  output_file c = d +:+ "/results/" +:+ n +:+ "." +:+ e.
Proof.
  intros Hn1 Hn2 He1 He2 Hd Hend c.
  destruct (plain_base n e) as (Hbase & Hsplit & Hstart); [done..|].
  destruct (snoc_cases d) as [->|(d0 & x & ->)]; [done|].
  rewrite endswith_snoc in Hend.
  assert (x ≠ "/"%char) as Hx by (by destruct (Ascii.eqb_spec x "/")).
  assert (Path.split (file_path c) = (d0 +:+ String x "", n +:+ "." +:+ e))
    as Hps by (by apply split_join).
  assert (output_folder c = (d0 +:+ String x "") +:+ "/results") as Hfolder.
  { unfold output_folder, Path.dirname. simpl _output_folder. rewrite Hps.
    by apply join_plain. }
  split; [|split; [done|]].
  + unfold __init__. simpl in Hps. rewrite Hps. cbn [snd].
    by rewrite Hsplit.
  + unfold output_file. rewrite Hfolder. simpl file_name. simpl ext.
    replace ((d0 +:+ String x "") +:+ "/results")
      with (((d0 +:+ String x "") +:+ "/result") +:+ "s")
      by (by rewrite !sapp_assoc).
    rewrite join_plain by done. by rewrite !sapp_assoc.
Qed.

(** X3: for a path [d/n.e] whose folder [d] does not end with a slash and
    whose [n] and [e] contain neither dot nor slash, [__init__] keeps [n]
    and [e], and without a folder of its own the converter works in
    [d/results] and stages the input at [d/results/n.e]; for a bare [n.e]
    these are [results] and [results/n.e]. *)
Theorem init_plain_path (d n e f : string) :
  has_char "." n = false → has_char "/" n = false →
  has_char "." e = false → has_char "/" e = false →
  (d ≠ "" → Str.endswith "/" d = false →
   let c := {| file_path := d +:+ "/" +:+ n +:+ "." +:+ e; file_name := n;
               _output_folder := None; ext := e; fmt := f |} in
   __init__ (d +:+ "/" +:+ n +:+ "." +:+ e) f None = inr c ∧
   output_folder c = d +:+ "/results" ∧
   output_file c = d +:+ "/results/" +:+ n +:+ "." +:+ e) ∧
  (let c := {| file_path := n +:+ "." +:+ e; file_name := n;
               _output_folder := None; ext := e; fmt := f |} in
   __init__ (n +:+ "." +:+ e) f None = inr c ∧
   output_folder c = "results" ∧
   output_file c = "results/" +:+ n +:+ "." +:+ e).
Proof.
  intros Hn1 Hn2 He1 He2.
  destruct (plain_base n e) as (Hbase & Hsplit & Hstart); [done..|].
  split.
  - intros Hd Hend. by apply init_in_folder.
  - intros c.
    assert (Path.split (file_path c) = ("", n +:+ "." +:+ e)) as Hps.
    { unfold Path.split. simpl file_path. by rewrite rcut_absent. }
    split; [|split].
    + unfold __init__. simpl in Hps. rewrite Hps. cbn [snd].
      by rewrite Hsplit.
    + unfold output_folder, Path.dirname. simpl _output_folder. by rewrite Hps.
    + unfold output_file, output_folder, Path.dirname. simpl _output_folder.
      rewrite Hps. simpl file_name. simpl ext.
      change (Path.join "" "results") with ("result" +:+ "s").
      by rewrite (join_plain "result" "s") by done.
Qed.

Lemma default_folder_snoc fp f c :
  __init__ fp f None = inr c →
  ∃ sep, output_folder c = (Path.dirname fp +:+ sep +:+ "result") +:+ "s".
Proof.
  intros (Hfp & _ & Hfolder & _)%init_fields.
  destruct (PathFacts.join_relative (Path.dirname fp) "results" eq_refl)
    as (sep & Hsep & Hjoin).
  exists sep. unfold output_folder. rewrite Hfolder, Hfp, Hjoin, !sapp_assoc.
  by destruct Hsep as [-> | ->].
Qed.

Lemma default_folder_split fp f c :
  __init__ fp f None = inr c →
  Path.split (output_file c)
  = (output_folder c, file_name c +:+ "." +:+ ext c).
Proof.
  intros Hinit.
  pose proof (init_base_no_sep _ _ _ _ Hinit) as Hbase.
  destruct (default_folder_snoc _ _ _ Hinit) as [sep Hsnoc].
  unfold output_file. rewrite Hsnoc.
  rewrite join_plain by (done || by apply startswith_sep_has_char).
  by apply split_join.
Qed.

Lemma staged_is_not_input fp f c :
  __init__ fp f None = inr c → file_path c ≠ output_file c.
Proof.
  intros Hinit Hsame.
  pose proof (default_folder_split _ _ _ Hinit) as Hsplit.
  destruct (default_folder_snoc _ _ _ Hinit) as [sep Hsnoc].
  apply init_fields in Hinit as (Hfp & _).
  rewrite <- Hsame, Hfp in Hsplit.
  assert (Path.dirname fp = output_folder c) as Hdir
    by (unfold Path.dirname; by rewrite Hsplit).
  apply (f_equal String.length) in Hdir.
  rewrite Hsnoc, !slength_app in Hdir. simpl in Hdir. lia.
Qed.

(** X4: without a folder of its own, a converter built by [__init__]
    works in the folder [results] beside the input; the staged path splits
    into that folder and name, dot, extension; and the staged path is never
    the path of the input. *)
Theorem default_folder_staging (fp f : string) (c : Converter) :
  __init__ fp f None = inr c →
  output_folder c = Path.join (Path.dirname fp) "results" ∧
  Path.split (output_file c)
  = (output_folder c, file_name c +:+ "." +:+ ext c) ∧
  file_path c ≠ output_file c.
Proof.
  intros Hinit. split; [|split].
  - apply init_fields in Hinit as (Hfp & _ & Hfolder & _).
    unfold output_folder. by rewrite Hfolder, Hfp.
  - by eapply default_folder_split.
  - by eapply staged_is_not_input.
Qed.

End converter_facts.

(** ** Failures, messages and the entry point *)

Section run_more.
Context `{Collaborators}.
Import Str StrFacts TextFacts PathMore.

(** X5: [run] creates the output folder before it looks at the input: when
    there is no input file it raises [FileNotFoundError], and when the
    staged path is the path of the input it raises [SameFileError]; in both
    cases the folder has been created, nothing has been written and neither
    the parser nor a writer has been called. *)
Theorem run_early_failures (c : Converter) (w : world) :
  let left_behind :=
    {| files := files w; dirs := {[output_folder c]} ∪ dirs w;
       events := events w ++ [EMakedirs (output_folder c)] |} in
  (files w !! file_path c = None →
   run c w = (inl FileNotFoundError, left_behind)) ∧
  (is_Some (files w !! file_path c) → file_path c = output_file c →
   run c w = (inl SameFileError, left_behind)).
Proof.
  cbv zeta. split.
  - intros Hd. rewrite run_spec, Hd. done.
  - intros [data Hd] Hsame. rewrite run_spec, Hd. unfold run_trace.
    by rewrite bool_decide_eq_true_2 by done.
Qed.

Lemma run_outcome c w :
  (run c w).1 = (run_trace c (files w !! file_path c)).1.1.
Proof.
  rewrite run_spec.
  by destruct (run_trace c (files w !! file_path c)) as [[??]?].
Qed.

Lemma run_new_events c w :
  events (run c w).2
  = events w ++ (run_trace c (files w !! file_path c)).1.2.
Proof.
  rewrite run_spec.
  by destruct (run_trace c (files w !! file_path c)) as [[??]?].
Qed.

(** X6: from the command line, with a recognised format and an input that
    exists and has a dot in its base name, the conversion ends normally
    unless the parser rejects the file: no other exception is raised. *)
Theorem main_outcome (filename format : string) (w : world) (data : string) :
  format = "vtk" ∨ format = "vtu" →
  has_char "." (Path.basename filename) = true →
  files w !! filename = Some data →
  (main filename format w).1
  = match parse_bytes data with
    | Some _ => inr tt
    | None => inl MalformedFile
    end.
Proof.
  intros Hfmt Hdot Hd.
  destruct (init_ok_of_dot filename format None Hdot) as [c Hc].
  pose proof (staged_is_not_input _ _ _ Hc) as Hne.
  pose proof (init_fields _ _ _ _ Hc) as (Hfp & _).
  unfold main. rewrite bool_decide_eq_true_2, Hc
    by (rewrite !elem_of_cons; tauto).
  pose proof (run_outcome c w) as Hout.
  rewrite Hfp, Hd in Hout. unfold run_trace in Hout.
  rewrite bool_decide_eq_false_2 in Hout by done.
  unfold mbind, M_bind. destruct (run c w) as [r w'].
  simpl in Hout. subst r. by destruct (parse_bytes data).
Qed.

Lemma writer_events_no_cleanup c p n t :
  Forall (λ e, e ≠ ECleanCache) (writer_events c p n t).
Proof.
  unfold writer_events.
  destruct (bool_decide _), (bool_decide _); repeat constructor; done.
Qed.

Lemma body_events_no_cleanup c p :
  Forall (λ e, e ≠ ECleanCache) (body_events c p).
Proof.
  unfold body_events. destruct (_ && _); [|by repeat constructor].
  destruct (bool_decide (length (TimeSeries p) ≠ 0)).
  - constructor; [done|]. apply Forall_app. split.
    + unfold loop_events. apply Forall_bind, Forall_forall. intros it _.
      constructor; [done|]. apply writer_events_no_cleanup.
    + destruct (_ && _); by repeat constructor.
  - constructor; [done|]. apply writer_events_no_cleanup.
Qed.

Lemma run_trace_no_cleanup c d :
  Forall (λ e, e ≠ ECleanCache) (run_trace c d).1.2.
Proof.
  unfold run_trace. destruct d as [data|]; [|by repeat constructor].
  destruct (bool_decide _); [by repeat constructor|].
  destruct (parse_bytes data) as [p|]; [|by repeat constructor]. simpl.
  repeat (constructor; [done|]). apply body_events_no_cleanup.
Qed.

(** X7: [main] cleans the cache exactly when nothing was raised: after an
    exception of the constructor or of [run] the cleaning is skipped, and
    after a normal end, also the one of a wrong format, it has happened. *)
Theorem main_cleans_iff_no_exception (filename format : string) (w : world) :
  ∃ evs,
    events (main filename format w).2 = events w ++ evs ∧
    (ECleanCache ∈ evs ↔ (main filename format w).1 = inr tt).
Proof.
  unfold main. destruct (bool_decide (format ∈ ["vtk"; "vtu"])).
  - destruct (__init__ filename format None) as [e|c].
    + exists []. split; [by rewrite app_nil_r|]. split; [|done].
      by intros ?%elem_of_nil.
    + pose proof (run_new_events c w) as Hev.
      pose proof (run_trace_no_cleanup c (files w !! file_path c)) as Hnc.
      unfold mbind, M_bind. destruct (run c w) as [[e|[]] w']; simpl in *.
      * eexists. split; [done|]. split; [|done].
        intros Hin. rewrite Forall_forall in Hnc. by destruct (Hnc _ Hin).
      * eexists. rewrite Hev, <- app_assoc. split; [done|]. split; [done|].
        intros _. apply elem_of_app. right. left.
  - exists [EPrint (wrong_format_msg format); ECleanCache].
    unfold print, clean_cache.
    rewrite (bind_ok _ _ _ _ _ (emit_extend _ w)), emit_extend. simpl.
    split; [by rewrite <- app_assoc|]. split; [done|].
    intros _. right. left.
Qed.

Lemma infos_loop c p items :
  infos (loop_events c p items)
  = (λ it, "Writing " +:+ relpath it.2) <$> items.
Proof.
  unfold loop_events, writer_events.
  induction items as [|it items IH]; [done|].
  unfold infos in *. rewrite bind_cons, bind_app, IH.
  by destruct (bool_decide _), (bool_decide _).
Qed.

Lemma warnings_loop c p items : warnings (loop_events c p items) = [].
Proof.
  unfold loop_events, writer_events.
  induction items as [|it items IH]; [done|].
  unfold warnings in *. rewrite bind_cons, bind_app, IH.
  by destruct (bool_decide _), (bool_decide _).
Qed.

(** X8: a run over L > 0 time values logs no warning and, at level INFO,
    the staged path, then the number of increments, in the singular for
    one and the plural for more, then one line per output file in the
    order of the increments. *)
Theorem run_info_lines (c : Converter) (w : world) (data : string) (p : FRD) :
  files w !! file_path c = Some data →
  file_path c ≠ output_file c →
  parse_bytes data = Some p →
  is_Some (node_block p) → is_Some (elem_block p) →
  length (TimeSeries p) ≠ 0 →
  let L := length (TimeSeries p) in
  ∃ evs,
    events (run c w).2 = events w ++ evs ∧
    infos evs
    = ["Parsing " +:+ relpath (output_file c);
       Str.of_nat L +:+ " time increment"
         +:+ (if bool_decide (L = 1) then "" else "s")]
      ++ ((λ n, "Writing " +:+ relpath n) <$> timed_names c L) ∧
    warnings evs = [].
Proof.
  intros Hd Hne Hp Hnode Helem HL L.
  exists (staging_events c ++ body_events c p).
  rewrite (run_parsed c w data p) by done. split; [done|].
  destruct (body_events_timed c p Hnode Helem HL) as [-> _]. fold L.
  assert (repeat_char "s" (1 `min` (L - 1))
          = if bool_decide (L = 1) then "" else "s") as ->.
  { case_bool_decide as HL1; [by rewrite HL1|].
    replace (1 `min` (L - 1)) with 1 by (unfold L in *; lia). done. }
  split.
  - unfold infos. rewrite bind_app, bind_cons, bind_app.
    fold (infos (loop_events c p (zip (TimeSeries p) (timed_names c L)))).
    rewrite infos_loop. simpl. f_equal. f_equal.
    assert ((if bool_decide (1 < L) && bool_decide (fmt c = "vtu")
             then [EWritePVD (pvd_name c)
                     (zip (TimeSeries p) (timed_names c L))]
             else [])
            ≫= (λ e, match e with ELog INFO msg => [msg] | _ => [] end)
            = []) as -> by (by destruct (_ && _)).
    rewrite app_nil_r.
    rewrite <- (snd_zip (TimeSeries p) (timed_names c L)) at 2
      by (rewrite length_timed_names; done).
    by rewrite <- list_fmap_compose.
  - unfold warnings. rewrite bind_app, bind_cons, bind_app.
    fold (warnings (loop_events c p (zip (TimeSeries p) (timed_names c L)))).
    rewrite warnings_loop. by destruct (_ && _).
Qed.

(** X9: when there is no time value, the name of the single output is the
    staged path with its extension replaced by the format exactly when the
    extension has three characters; with an extension of two characters the
    dot before it is lost as well. *)
Theorem untimed_name_three_characters (c : Converter) :
  ∃ pre,
    output_file c = pre +:+ file_name c +:+ "." +:+ ext c ∧
    (Str.drop_last 3 (output_file c) +:+ fmt c
     = pre +:+ file_name c +:+ "." +:+ fmt c
     ↔ String.length (ext c) = 3) ∧
    (String.length (ext c) = 2 →
     Str.drop_last 3 (output_file c) +:+ fmt c
     = pre +:+ file_name c +:+ fmt c).
Proof.
  destruct (output_file_ends c) as [pre Hpre]. exists pre.
  split; [done|]. rewrite Hpre. split; [split|]; intros Hlen.
  - apply (f_equal String.length) in Hlen.
    rewrite !slength_app, length_drop_last, !slength_app in Hlen.
    simpl in Hlen. lia.
  - replace (pre +:+ file_name c +:+ "." +:+ ext c)
      with ((pre +:+ file_name c +:+ ".") +:+ ext c)
      by (by rewrite !sapp_assoc).
    rewrite <- Hlen, drop_last_app. by rewrite !sapp_assoc.
  - replace (pre +:+ file_name c +:+ "." +:+ ext c)
      with ((pre +:+ file_name c) +:+ ("." +:+ ext c))
      by (by rewrite !sapp_assoc).
    replace 3 with (String.length ("." +:+ ext c))
      by (rewrite slength_app; simpl; lia).
    rewrite drop_last_app. by rewrite !sapp_assoc.
Qed.

Lemma writer_events_other c p n t :
  fmt c ≠ "vtk" → fmt c ≠ "vtu" →
  writer_events c p n t = [] ∧ writer_writes c p n t = [].
Proof.
  intros Hvtk Hvtu. unfold writer_events, writer_writes.
  by rewrite !bool_decide_eq_false_2.
Qed.

Lemma loop_other c p items :
  fmt c ≠ "vtk" → fmt c ≠ "vtu" →
  writer_calls (loop_events c p items) = [] ∧
  loop_writes c p items = [].
Proof.
  intros Hvtk Hvtu. unfold loop_events, loop_writes.
  induction items as [|it items [IHe IHw]]; [done|].
  rewrite !bind_cons.
  destruct (writer_events_other c p it.2 (Some it.1)) as [-> ->]; [done..|].
  split; [|exact IHw]. unfold writer_calls in *.
  by rewrite bind_app, IHe.
Qed.

(** X14: [run] on a converter whose format is neither [vtk] nor [vtu]
    still stages and parses the input and ends normally, but it calls no
    writer: the staged copy is the only file it writes. *)
Theorem run_unknown_format (c : Converter) (w : world) (data : string)
    (p : FRD) :
  fmt c ≠ "vtk" → fmt c ≠ "vtu" →
  files w !! file_path c = Some data →
  file_path c ≠ output_file c →
  parse_bytes data = Some p →
  ∃ evs,
    run c w
    = (inr tt,
       {| files := <[output_file c := data]> (files w);
          dirs := {[output_folder c]} ∪ dirs w;
          events := events w ++ evs |}) ∧
    EParse (output_file c) ∈ evs ∧
    writer_calls evs = [] ∧ pvd_calls evs = [].
Proof.
  intros Hvtk Hvtu Hd Hne Hp.
  exists (staging_events c ++ body_events c p).
  rewrite (run_parsed c w data p) by done.
  assert (body_writes c p = []) as Hw.
  { unfold body_writes. destruct (_ && _); [|done].
    destruct (bool_decide (length (TimeSeries p) ≠ 0)).
    - rewrite (proj2 (loop_other c p _ Hvtk Hvtu)).
      by rewrite (bool_decide_eq_false_2 (fmt c = "vtu")), andb_false_r.
    - by apply writer_events_other. }
  rewrite Hw. split; [done|]. split.
  { apply elem_of_app. left. unfold staging_events.
    rewrite !elem_of_cons. tauto. }
  unfold body_events. destruct (_ && _); [|done].
  destruct (bool_decide (length (TimeSeries p) ≠ 0)).
  - rewrite (bool_decide_eq_false_2 (fmt c = "vtu")), andb_false_r by done.
    rewrite app_nil_r. split.
    + unfold writer_calls. rewrite bind_app. simpl.
      apply (loop_other c p _ Hvtk Hvtu).
    + unfold pvd_calls. rewrite bind_app. simpl. apply pvd_calls_loop.
  - by rewrite (proj1 (writer_events_other c p _ None Hvtk Hvtu)).
Qed.

End run_more.

(** ** Output names of a plain [.frd] path *)

Module FrdFacts.
Import Str StrFacts TextFacts.

Local Arguments Ascii.eqb : simpl never.

Lemma contains_no_dot s : has_char "." s = false → contains ".frd" s = false.
Proof.
  induction s as [|a s IH]; [done|]. simpl.
  intros [Ha Hs]%orb_false_iff. rewrite IH by done.
  by rewrite Ascii.eqb_sym, Ha.
Qed.

Lemma startswith_frd_sep a s t :
  startswith ".frd" (String a (s +:+ "/" +:+ t))
  = startswith ".frd" (String a s).
Proof.
  destruct s as [|b [|c [|d s]]]; simpl; rewrite ?andb_false_r; done.
Qed.

(** An occurrence of [.frd] does not reach across a slash. *)
Lemma contains_frd_sep s t :
  contains ".frd" (s +:+ "/" +:+ t) = contains ".frd" s || contains ".frd" t.
Proof.
  induction s as [|a s IH]; [done|].
  rewrite sapp_cons. cbn [contains]. rewrite startswith_frd_sep, IH.
  by rewrite orb_assoc.
Qed.

(** An occurrence of [.frd] does not reach across a dot. *)
Lemma startswith_frd_dot a s t :
  startswith ".frd" (String a (s +:+ String "." t))
  = startswith ".frd" (String a s).
Proof.
  destruct s as [|b [|c [|d s]]]; simpl; rewrite ?andb_false_r; done.
Qed.

Lemma startswith_frd_length a s :
  startswith ".frd" (String a s) = true → 3 ≤ String.length s.
Proof.
  destruct s as [|b [|c [|d s]]]; simpl; rewrite ?andb_false_r; try done.
  intros _. lia.
Qed.

(** [replace] also replaces an occurrence of [.frd] in the middle. *)
Lemma replace_go_frd_mid new k s t :
  k ≤ String.length s →
  replace_go ".frd" new k (s +:+ ".frd" +:+ t)
  = replace_go ".frd" new k s +:+ new +:+ replace_go ".frd" new 0 t.
Proof.
  revert k. induction s as [|a s IH]; intros k Hk.
  - assert (k = 0) as -> by (simpl in Hk; lia).
    rewrite sapp_nil_l. simpl replace_go. by rewrite !sapp_nil_l.
  - rewrite sapp_cons. destruct k as [|k].
    + cbn [replace_go].
      change (s +:+ ".frd" +:+ t) with (s +:+ String "." ("frd" +:+ t)) at 1.
      rewrite startswith_frd_dot.
      destruct (startswith ".frd" (String a s)) eqn:Hs.
      * apply startswith_frd_length in Hs.
        rewrite IH by (simpl; lia). by rewrite !sapp_assoc.
      * rewrite IH by lia. done.
    + cbn [replace_go]. apply IH. simpl in Hk. lia.
Qed.

Lemma replace_frd_mid new s t :
  contains ".frd" s = false → contains ".frd" t = false →
  replace ".frd" new (s +:+ ".frd" +:+ t) = s +:+ new +:+ t.
Proof.
  intros Hs Ht. unfold replace. rewrite replace_go_frd_mid by lia.
  fold (replace ".frd" new s). fold (replace ".frd" new t).
  by rewrite !replace_absent.
Qed.

Lemma startswith_app_same p a b :
  startswith (p +:+ a) (p +:+ b) = startswith a b.
Proof.
  induction p as [|x p IH]; [done|].
  rewrite !sapp_cons. simpl. by rewrite Ascii.eqb_refl.
Qed.

End FrdFacts.

Module OrderFacts.
Import Str StrFacts TextFacts.

Local Arguments Ascii.eqb : simpl never.
Local Arguments Nat.div : simpl never.
Local Arguments Nat.modulo : simpl never.

Lemma ascii_compare_refl a : Ascii.compare a a = Eq.
Proof. unfold Ascii.compare. apply N.compare_refl. Qed.

Lemma compare_app_same s t1 t2 :
  String.compare (s +:+ t1) (s +:+ t2) = String.compare t1 t2.
Proof.
  induction s as [|a s IH]; [done|].
  rewrite !sapp_cons. simpl. by rewrite ascii_compare_refl.
Qed.

(** The order of two strings of one length decides the order of whatever
    they start. *)
Lemma compare_app_lt t1 t2 u1 u2 :
  String.length t1 = String.length t2 →
  String.compare t1 t2 = Lt →
  String.compare (t1 +:+ u1) (t2 +:+ u2) = Lt.
Proof.
  revert t2. induction t1 as [|a t1 IH]; intros [|b t2] Hlen Hlt;
    try discriminate.
  rewrite !sapp_cons. simpl in *.
  destruct (Ascii.compare a b); try done. apply IH; [lia|done].
Qed.

Lemma digit_compare a b :
  a < 10 → b < 10 →
  Ascii.compare (digit_char a) (digit_char b) = (a ?= b).
Proof.
  intros Ha Hb.
  do 10 (destruct a as [|a];
         [do 10 (destruct b as [|b]; [reflexivity|]); lia|]).
  lia.
Qed.

Lemma digit_val_lt c : digit_val c < 10.
Proof. unfold digit_val. repeat case_match; lia. Qed.

Lemma is_digit_char d : d < 10 → is_digit (digit_char d) = true.
Proof.
  intros Hd. unfold is_digit. rewrite digit_val_char by done.
  apply Ascii.eqb_refl.
Qed.

Lemma all_digits_app s t :
  all_digits (s +:+ t) = all_digits s && all_digits t.
Proof.
  induction s as [|a s IH]; [done|]. rewrite sapp_cons. simpl.
  by rewrite IH, andb_assoc.
Qed.

Lemma all_digits_of_nat n : all_digits (of_nat n) = true.
Proof.
  induction (lt_wf n) as [n _ IH].
  destruct (Nat.lt_ge_cases n 10) as [Hn|Hn].
  - rewrite of_nat_small by done. simpl. by rewrite is_digit_char.
  - rewrite of_nat_large, all_digits_app by done.
    rewrite IH by (apply Nat.div_lt; lia). simpl.
    rewrite is_digit_char; [done|]. apply Nat.mod_upper_bound. lia.
Qed.

Lemma all_digits_zeros k : all_digits (repeat_char "0" k) = true.
Proof. induction k as [|k IH]; [done|]. simpl. by rewrite IH. Qed.

Lemma all_digits_format_zero_pad w n :
  all_digits (format_zero_pad w n) = true.
Proof.
  unfold format_zero_pad.
  by rewrite all_digits_app, all_digits_zeros, all_digits_of_nat.
Qed.

Lemma to_nat_go_shift a s :
  to_nat_go a s = a * 10 ^ String.length s + to_nat s.
Proof.
  unfold to_nat. revert a. induction s as [|c s IH]; intros a.
  - simpl. lia.
  - cbn [to_nat_go String.length]. rewrite (IH (10 * a + digit_val c)).
    rewrite (IH (10 * 0 + digit_val c)). rewrite Nat.pow_succ_r'. lia.
Qed.

Lemma to_nat_bound s : to_nat s < 10 ^ String.length s.
Proof.
  induction s as [|c s IH]; [unfold to_nat; simpl; lia|].
  unfold to_nat. cbn [to_nat_go String.length].
  rewrite to_nat_go_shift, Nat.pow_succ_r'.
  pose proof (digit_val_lt c). nia.
Qed.

(** Digit strings of one length are ordered like the numbers they spell. *)
Lemma compare_digits s t :
  all_digits s = true → all_digits t = true →
  String.length s = String.length t →
  to_nat s < to_nat t → String.compare s t = Lt.
Proof.
  revert t. induction s as [|a s IH]; intros [|b t] Hs Ht Hlen Hlt;
    try discriminate.
  - unfold to_nat in Hlt. simpl in Hlt. lia.
  - simpl in Hs, Ht, Hlen.
    apply andb_true_iff in Hs as [Ha Hs]. apply andb_true_iff in Ht as [Hb Ht].
    unfold is_digit in Ha, Hb.
    apply Ascii.eqb_eq in Ha. apply Ascii.eqb_eq in Hb.
    unfold to_nat in Hlt. cbn [to_nat_go] in Hlt.
    rewrite (to_nat_go_shift _ s), (to_nat_go_shift _ t) in Hlt.
    pose proof (to_nat_bound s). pose proof (to_nat_bound t).
    pose proof (digit_val_lt a). pose proof (digit_val_lt b).
    injection Hlen as Hlen. rewrite <- Hlen in *.
    simpl. rewrite Ha, Hb, digit_compare by done.
    destruct (Nat.compare_spec (digit_val a) (digit_val b)) as [Heq|Hab|Hab].
    + apply IH; try done. rewrite Heq in Hlt. lia.
    + done.
    + nia.
Qed.

(** Replacing with a smaller string of the same length, and ending with it,
    gives a smaller string. *)
Lemma replace_go_compare old e1 e2 k s :
  String.length e1 = String.length e2 →
  String.compare e1 e2 = Lt →
  String.compare (replace_go old e1 k s +:+ e1) (replace_go old e2 k s +:+ e2)
  = Lt.
Proof.
  intros Hlen Hlt. revert k. induction s as [|a s IH]; intros k; [done|].
  cbn [replace_go]. destruct k as [|k]; [|apply IH].
  destruct (startswith old (String a s)).
  - rewrite !sapp_assoc. by apply compare_app_lt.
  - rewrite !sapp_cons. simpl. rewrite ascii_compare_refl. apply IH.
Qed.

End OrderFacts.

Section names_more.
Context `{Collaborators}.
Import Str StrFacts TextFacts PathMore FrdFacts OrderFacts.

(** X10: with an extension [frd] and more than one time value, the file
    names of the increments are in increasing order as strings: the zero
    padding makes the alphabetical order of the files the order of the
    increments. *)
Theorem names_sorted_by_increment (c : Converter) (L i j : nat) :
  ext c = "frd" → 1 < L → i < j → j ≤ L →
  String.ltb
    (Str.replace ".frd" (increment_ext c L i) (output_file c))
    (Str.replace ".frd" (increment_ext c L j) (output_file c)) = true.
Proof.
  intros Hext HL Hij Hj.
  destruct (output_file_frd c Hext) as [stem ->].
  rewrite !replace_frd_app. unfold String.ltb, replace.
  rewrite replace_go_compare; [done|..].
  - by rewrite !increment_ext_length by lia.
  - rewrite !increment_ext_many by done.
    rewrite !(sapp_cons "." ""), !sapp_nil_l. simpl.
    apply compare_app_lt.
    + by rewrite !length_format_zero_pad by lia.
    + apply compare_digits.
      * apply all_digits_format_zero_pad.
      * apply all_digits_format_zero_pad.
      * by rewrite !length_format_zero_pad by lia.
      * by rewrite !to_nat_format_zero_pad.
Qed.

Lemma body_writes_keys c p k :
  k ∈ (body_writes c p).*1 →
  (fmt c = "vtk" ∨ fmt c = "vtu") ∧
  (k = untimed_name c ∨ k = pvd_name c
   ∨ ∃ i, k = timed_name c (length (TimeSeries p)) i).
Proof.
  unfold body_writes.
  destruct (_ && _); [|by intros ?%elem_of_nil].
  assert (∀ n t, k ∈ (writer_writes c p n t).*1 →
                 (fmt c = "vtk" ∨ fmt c = "vtu") ∧ k = n) as Hone.
  { intros n t. unfold writer_writes.
    do 2 case_bool_decide; simpl; rewrite ?elem_of_cons, ?elem_of_nil;
      intuition. }
  destruct (bool_decide (length (TimeSeries p) ≠ 0)).
  - rewrite fmap_app, elem_of_app. intros [Hin|Hin].
    + apply list_elem_of_fmap in Hin as ([k' v] & -> & Hin).
      apply list_elem_of_bind in Hin as ([t n] & Hin & Hzip).
      destruct (Hone n (Some t)) as [Hfmt ->].
      { apply list_elem_of_fmap. by exists (k', v). }
      split; [done|]. right. right.
      apply elem_of_zip_r in Hzip. unfold timed_names in Hzip.
      apply list_elem_of_fmap in Hzip as (i & -> & _). by exists i.
    + destruct (bool_decide (1 < _)); simpl in Hin; [|by apply elem_of_nil in Hin].
      case_bool_decide as Hvtu; simpl in Hin; [|by apply elem_of_nil in Hin].
      apply list_elem_of_singleton in Hin as ->. auto.
  - intros Hin. destruct (Hone _ _ Hin) as [Hfmt ->]. auto.
Qed.

Lemma run_files c w data :
  files w !! file_path c = Some data → file_path c ≠ output_file c →
  ∃ rest,
    files (run c w).2 = write_all ((output_file c, data) :: rest) (files w) ∧
    ∀ k, k ∈ rest.*1 → ∃ p, k ∈ (body_writes c p).*1.
Proof.
  intros Hd Hne. rewrite run_spec, Hd. unfold run_trace.
  rewrite bool_decide_eq_false_2 by done.
  destruct (parse_bytes data) as [p|].
  - exists (body_writes c p). split; [done|]. intros k Hk. by exists p.
  - exists []. split; [done|]. by intros k ?%elem_of_nil.
Qed.

(** X15: [replace] rewrites every [.frd] of the staged path: for an
    input [d.frd/n.frd] the names of the increments and of the series
    index get their suffix in the name of the folder as well, so they do
    not lie in the output folder, while the name used when there is no
    time value keeps the folder. *)
Theorem frd_folder_is_replaced (d n f : string) (L k : nat) :
  Str.contains ".frd" d = false →
  has_char "." n = false → has_char "/" n = false →
  f = "vtk" ∨ f = "vtu" →
  let c := {| file_path := d +:+ ".frd/" +:+ n +:+ ".frd"; file_name := n;
              _output_folder := None; ext := "frd"; fmt := f |} in
  __init__ (d +:+ ".frd/" +:+ n +:+ ".frd") f None = inr c ∧
  output_folder c = d +:+ ".frd/results" ∧
  timed_name c L k
  = d +:+ increment_ext c L k +:+ "/results/" +:+ n +:+ increment_ext c L k ∧
  pvd_name c = d +:+ ".pvd/results/" +:+ n +:+ ".pvd" ∧
  untimed_name c = d +:+ ".frd/results/" +:+ n +:+ "." +:+ f ∧
  Str.startswith (output_folder c) (timed_name c L k) = false.
Proof.
  intros Hfrd Hdot Hsep Hf c.
  assert (d +:+ ".frd" ≠ "") as Hd by (by destruct d).
  assert (Str.endswith "/" (d +:+ ".frd") = false) as Hend.
  { change (d +:+ ".frd") with (d +:+ ".fr" +:+ "d").
    rewrite <- sapp_assoc. apply endswith_snoc. }
  destruct (init_in_folder (d +:+ ".frd") n "frd" f Hdot Hsep eq_refl eq_refl
              Hd Hend) as (Hinit & Hfolder & Hfile).
  rewrite sapp_assoc in Hinit. rewrite !sapp_assoc in Hfolder.
  rewrite !sapp_assoc in Hfile.
  assert (output_file c = d +:+ ".frd" +:+ ("/results/" +:+ n) +:+ ".frd")
    as Hout by exact Hfile.
  assert (Str.contains ".frd" ("/results/" +:+ n) = false) as Hrest.
  { change ("/results/" +:+ n) with ("" +:+ "/" +:+ "results" +:+ "/" +:+ n).
    rewrite !contains_frd_sep. by rewrite (contains_no_dot n). }
  assert (∀ e, Str.replace ".frd" e (output_file c)
               = d +:+ e +:+ "/results/" +:+ n +:+ e) as Hrep.
  { intros e. rewrite Hout.
    replace (d +:+ ".frd" +:+ ("/results/" +:+ n) +:+ ".frd")
      with ((d +:+ ".frd" +:+ ("/results/" +:+ n)) +:+ ".frd")
      by (by rewrite !sapp_assoc).
    rewrite replace_frd_app, replace_frd_mid by done.
    by rewrite !sapp_assoc. }
  split; [exact Hinit|]. split; [exact Hfolder|].
  split; [apply Hrep|]. split; [apply Hrep|]. split.
  - unfold untimed_name. rewrite Hout.
    replace (d +:+ ".frd" +:+ ("/results/" +:+ n) +:+ ".frd")
      with ((d +:+ ".frd/results/" +:+ n +:+ ".") +:+ "frd")
      by (by rewrite !sapp_assoc).
    rewrite (drop_last_app _ "frd"). by rewrite !sapp_assoc.
  - unfold timed_name. rewrite Hrep.
    assert (output_folder c = d +:+ ".frd/results") as -> by exact Hfolder.
    rewrite startswith_app_same.
    destruct (decide (1 < L)) as [HL|HL].
    + rewrite increment_ext_many by done.
      pose proof (all_digits_format_zero_pad (String.length (of_nat L)) k)
        as Hdig.
      assert (0 < String.length
                    (format_zero_pad (String.length (of_nat L)) k)) as Hlen.
      { unfold format_zero_pad. rewrite slength_app.
        pose proof (of_nat_length_pos k). lia. }
      destruct (format_zero_pad _ k) as [|a pad]; [simpl in Hlen; lia|].
      simpl in Hdig. apply andb_prop in Hdig as [Ha _].
      repeat (rewrite sapp_cons || rewrite sapp_nil_l). cbn [startswith].
      destruct (Ascii.eqb_spec "f" a) as [<-|]; [discriminate Ha|].
      by rewrite andb_false_r.
    + rewrite increment_ext_single by lia. simpl fmt.
      by destruct Hf as [-> | ->].
Qed.

Section plain.
Variables d n f : string.
Hypothesis Hd : d ≠ "".
Hypothesis Hend : Str.endswith "/" d = false.
Hypothesis Hfrd : Str.contains ".frd" d = false.
Hypothesis Hdot : has_char "." n = false.
Hypothesis Hsep : has_char "/" n = false.

Lemma plain_init :
  __init__ (plain_input d n) f None = inr (plain_converter d n f) ∧
  output_file (plain_converter d n f) = plain_stem d n +:+ ".frd".
Proof.
  destruct (init_in_folder d n "frd" f Hdot Hsep eq_refl eq_refl Hd Hend)
    as (Hinit & _ & Hfile).
  split; [exact Hinit|].
  unfold plain_converter, plain_input, plain_stem.
  rewrite sapp_assoc. exact Hfile.
Qed.

Lemma plain_stem_clean : Str.contains ".frd" (plain_stem d n) = false.
Proof.
  unfold plain_stem.
  change (d +:+ "/results/" +:+ n) with (d +:+ "/" +:+ "results" +:+ "/" +:+ n).
  rewrite contains_frd_sep, Hfrd, contains_frd_sep.
  by rewrite (contains_no_dot n).
Qed.

Lemma plain_timed_many L k :
  1 < L →
  Str.replace ".frd" (increment_ext (plain_converter d n f) L k)
    (output_file (plain_converter d n f))
  = plain_stem d n +:+ "."
      +:+ Str.format_zero_pad (String.length (Str.of_nat L)) k +:+ "." +:+ f.
Proof.
  intros HL. rewrite (proj2 plain_init).
  rewrite replace_frd_app, replace_absent by apply plain_stem_clean.
  by rewrite increment_ext_many.
Qed.

Lemma plain_timed_single L k :
  L ≤ 1 →
  Str.replace ".frd" (increment_ext (plain_converter d n f) L k)
    (output_file (plain_converter d n f))
  = plain_stem d n +:+ "." +:+ f.
Proof.
  intros HL. rewrite (proj2 plain_init).
  rewrite replace_frd_app, replace_absent by apply plain_stem_clean.
  by rewrite increment_ext_single.
Qed.

Lemma plain_untimed :
  Str.drop_last 3 (output_file (plain_converter d n f)) +:+ f
  = plain_stem d n +:+ "." +:+ f.
Proof.
  rewrite (proj2 plain_init).
  change (plain_stem d n +:+ ".frd") with (plain_stem d n +:+ "." +:+ "frd").
  replace (plain_stem d n +:+ "." +:+ "frd")
    with ((plain_stem d n +:+ ".") +:+ "frd") by (by rewrite sapp_assoc).
  rewrite (drop_last_app _ "frd"). by rewrite sapp_assoc.
Qed.

Lemma plain_pvd :
  Str.replace ".frd" ".pvd" (output_file (plain_converter d n f))
  = plain_stem d n +:+ ".pvd".
Proof.
  rewrite (proj2 plain_init).
  by rewrite replace_frd_app, replace_absent by apply plain_stem_clean.
Qed.

(** X11: for an input [d/n.frd] in a folder whose path holds no [.frd],
    the outputs are [d/results/n] followed by the increment, padded, and
    the format when there are several time values, by the format alone for
    one time value and for none, and by [pvd] for the series index. *)
Theorem plain_output_names :
  let c := plain_converter d n f in
  __init__ (plain_input d n) f None = inr c ∧
  (∀ L k, 1 < L →
     Str.replace ".frd" (increment_ext c L k) (output_file c)
     = plain_stem d n +:+ "."
         +:+ Str.format_zero_pad (String.length (Str.of_nat L)) k
         +:+ "." +:+ f) ∧
  (∀ L k, L ≤ 1 →
     Str.replace ".frd" (increment_ext c L k) (output_file c)
     = plain_stem d n +:+ "." +:+ f) ∧
  Str.drop_last 3 (output_file c) +:+ fmt c = plain_stem d n +:+ "." +:+ f ∧
  Str.replace ".frd" ".pvd" (output_file c) = plain_stem d n +:+ ".pvd".
Proof.
  cbv zeta. split; [apply plain_init|]. split; [|split; [|split]].
  - intros L k HL. by apply plain_timed_many.
  - intros L k HL. by apply plain_timed_single.
  - apply plain_untimed.
  - apply plain_pvd.
Qed.

Lemma plain_written_key p k :
  k ∈ (body_writes (plain_converter d n f) p).*1 →
  ∃ suffix,
    k = plain_stem d n +:+ "." +:+ suffix ∧ suffix ≠ "frd".
Proof.
  intros [Hfmt Hk]%body_writes_keys.
  assert (f = "vtk" ∨ f = "vtu") as Hf by done.
  destruct Hk as [->|[->|[i ->]]].
  - exists f. split; [exact plain_untimed|]. by destruct Hf as [-> | ->].
  - exists "pvd". split; [exact plain_pvd|done].
  - unfold timed_name.
    destruct (decide (1 < length (TimeSeries p))) as [HL|HL].
    + rewrite plain_timed_many by done. eexists. split; [done|].
      intros Heq. apply (f_equal (has_char ".")) in Heq.
      rewrite has_char_app in Heq. simpl in Heq.
      by rewrite orb_true_r in Heq.
    + rewrite plain_timed_single by lia. exists f. split; [done|].
      by destruct Hf as [-> | ->].
Qed.

Lemma plain_not_input suffix :
  plain_input d n ≠ plain_stem d n +:+ "." +:+ suffix.
Proof.
  intros Heq. unfold plain_input, plain_stem in Heq.
  change (d +:+ "/results/" +:+ n) with (d +:+ "/" +:+ "results/" +:+ n)
    in Heq.
  rewrite !sapp_assoc in Heq. apply String.app_inj in Heq.
  rewrite !sapp_cons, sapp_nil_l in Heq. injection Heq as Heq.
  apply (f_equal (has_char "/")) in Heq.
  rewrite has_char_app, Hsep in Heq. simpl in Heq. discriminate.
Qed.

(** The writes of a run on [d/n.frd]: the staged copy, then files named
    [d/results/n.] and something other than [frd]. *)
Lemma plain_run_writes w data :
  files w !! plain_input d n = Some data →
  ∃ rest,
    files (run (plain_converter d n f) w).2
    = write_all ((plain_stem d n +:+ ".frd", data) :: rest) (files w) ∧
    ∀ k, k ∈ rest.*1 →
         ∃ suffix, k = plain_stem d n +:+ "." +:+ suffix ∧ suffix ≠ "frd".
Proof.
  intros Hdata. destruct plain_init as [Hinit Hfile].
  destruct (run_files (plain_converter d n f) w data Hdata)
    as (rest & Hrun & Hrest).
  { rewrite Hfile. apply (plain_not_input "frd"). }
  exists rest. rewrite Hrun, Hfile. split; [done|].
  intros k [p Hk]%Hrest. by eapply plain_written_key.
Qed.

Lemma plain_input_kept w data :
  files w !! plain_input d n = Some data →
  files (run (plain_converter d n f) w).2 !! plain_input d n = Some data.
Proof.
  intros Hdata. destruct (plain_run_writes w data Hdata) as (rest & -> & Hkeys).
  rewrite write_all_lookup_other; [done|].
  rewrite fmap_cons. simpl. intros [Heq|Hin]%elem_of_cons.
  - by apply (plain_not_input "frd").
  - destruct (Hkeys _ Hin) as (suffix & Heq & _).
    by apply (plain_not_input suffix).
Qed.

(** X12: for an input [d/n.frd] in a folder whose path holds no [.frd],
    a run, however it ends, leaves the input file as it was and the staged
    copy with the bytes of the input, and every path whose content it has
    changed starts with [d/results/n.]. *)
Theorem plain_run_keeps_input (w : world) (data : string) :
  let c := plain_converter d n f in
  files w !! plain_input d n = Some data →
  files (run c w).2 !! plain_input d n = Some data ∧
  files (run c w).2 !! (plain_stem d n +:+ ".frd") = Some data ∧
  ∀ path, files (run c w).2 !! path ≠ files w !! path →
          Str.startswith (plain_stem d n +:+ ".") path = true.
Proof.
  intros c Hdata. split; [by apply plain_input_kept|].
  destruct (plain_run_writes w data Hdata) as (rest & Hrun & Hkeys).
  fold c in Hrun. rewrite Hrun. split.
  - apply (write_all_lookup_last [] _ _ rest).
    intros (suffix & Heq & Hsuffix)%Hkeys.
    apply String.app_inj in Heq. rewrite sapp_cons, sapp_nil_l in Heq.
    injection Heq as Heq. congruence.
  - intros path Hpath.
    destruct (decide (path ∈ ((plain_stem d n +:+ ".frd", data) :: rest).*1))
      as [Hin|Hnotin]; [|by rewrite write_all_lookup_other in Hpath].
    rewrite fmap_cons in Hin. simpl in Hin.
    apply elem_of_cons in Hin as [->|Hin].
    + change (plain_stem d n +:+ ".frd")
        with (plain_stem d n +:+ "." +:+ "frd").
      rewrite <- sapp_assoc. apply startswith_app.
    + destruct (Hkeys _ Hin) as (suffix & -> & _).
      rewrite <- sapp_assoc. apply startswith_app.
Qed.

(** X13: for an input [d/n.frd] in a folder whose path holds no [.frd],
    a second run on the world the first one has left ends like the first
    and leaves every file and folder as the first left them. *)
Theorem plain_run_twice (w : world) :
  let c := plain_converter d n f in
  let w1 := (run c w).2 in
  (run c w1).1 = (run c w).1 ∧
  files (run c w1).2 = files w1 ∧ dirs (run c w1).2 = dirs w1.
Proof.
  intros c w1.
  assert (files w1 !! file_path c = files w !! file_path c) as Hsame.
  { destruct (files w !! file_path c) as [data|] eqn:Hdata.
    - exact (plain_input_kept w data Hdata).
    - unfold w1. by rewrite run_spec, Hdata. }
  split; [by rewrite !run_outcome, Hsame|].
  unfold w1 at 1 3. rewrite (run_spec c w1), Hsame.
  unfold w1. rewrite (run_spec c w).
  destruct (run_trace c (files w !! file_path c)) as [[r evs] ws]. simpl.
  split; [apply write_all_idemp|].
  by rewrite (assoc_L (∪)), (idemp_L (∪)).
Qed.




End plain.
End names_more.

(** ** The further properties on the sample environment *)

Lemma init_keeps_two_segments_witness :
  __init__ "job/beam.v2.frd" "vtk" None
  = inr (converter_of "job/beam.v2.frd" "vtk") ∧
  file_name (converter_of "job/beam.v2.frd" "vtk") = "beam" ∧
  ext (converter_of "job/beam.v2.frd" "vtk") = "v2" ∧
  ∃ rest,
    Path.basename "job/beam.v2.frd" = String.concat "." ("beam" :: "v2" :: rest).
Proof.
  split; [reflexivity|]. split; [reflexivity|]. split; [reflexivity|].
  apply (init_keeps_two_segments "job/beam.v2.frd" "vtk" None
           (converter_of "job/beam.v2.frd" "vtk")).
  reflexivity.
Defined.

Lemma init_plain_path_witness :
  (__init__ "job/model.frd" "vtk" None
   = inr (converter_of "job/model.frd" "vtk") ∧
   output_folder (H := sample) (converter_of "job/model.frd" "vtk")
   = "job/results" ∧
   output_file (H := sample) (converter_of "job/model.frd" "vtk")
   = "job/results/model.frd") ∧
  (__init__ "model.frd" "vtk" None = inr (converter_of "model.frd" "vtk") ∧
   output_folder (H := sample) (converter_of "model.frd" "vtk") = "results" ∧
   output_file (H := sample) (converter_of "model.frd" "vtk")
   = "results/model.frd").
Proof.
  destruct (init_plain_path (H := sample) "job" "model" "frd" "vtk"
              eq_refl eq_refl eq_refl eq_refl) as [Hfolder Hbare].
  split; [|exact Hbare].
  apply Hfolder; [discriminate|reflexivity].
Defined.

Lemma default_folder_staging_witness :
  output_folder (H := sample) (converter_of "job/model.frd" "vtu")
  = Path.join (Path.dirname "job/model.frd") "results" ∧
  Path.split (output_file (H := sample) (converter_of "job/model.frd" "vtu"))
  = ("job/results", "model.frd") ∧
  "job/model.frd" ≠ "job/results/model.frd".
Proof.
  apply (default_folder_staging (H := sample) "job/model.frd" "vtu"
           (converter_of "job/model.frd" "vtu")).
  reflexivity.
Defined.

Lemma run_early_failures_witness :
  run (H := sample) (converter_of "job/model.frd" "vtk")
    {| files := ∅; dirs := ∅; events := [] |}
  = (inl FileNotFoundError,
     {| files := ∅; dirs := {["job/results"]} ∪ ∅;
        events := [] ++ [EMakedirs "job/results"] |}) ∧
  run (H := sample)
    {| file_path := "/work/out/model.frd"; file_name := "model";
       _output_folder := Some "out"; ext := "frd"; fmt := "vtk" |}
    (one_file "/work/out/model.frd" "mesh")
  = (inl SameFileError,
     {| files := {["/work/out/model.frd" := "mesh"]};
        dirs := {["/work/out"]} ∪ ∅;
        events := [] ++ [EMakedirs "/work/out"] |}).
Proof.
  split.
  - apply (run_early_failures (H := sample)
             (converter_of "job/model.frd" "vtk")
             {| files := ∅; dirs := ∅; events := [] |}).
    reflexivity.
  - apply (run_early_failures (H := sample)
             {| file_path := "/work/out/model.frd"; file_name := "model";
                _output_folder := Some "out"; ext := "frd"; fmt := "vtk" |}
             (one_file "/work/out/model.frd" "mesh")).
    + by eexists.
    + reflexivity.
Defined.

Lemma main_outcome_witness :
  (main (H := sample) "job/model.frd" "vtu"
     (one_file "job/model.frd" "two steps")).1 = inr tt ∧
  (main (H := sample) "job/model.frd" "vtu"
     (one_file "job/model.frd" "garbage")).1 = inl MalformedFile.
Proof.
  split.
  - apply (main_outcome (H := sample) "job/model.frd" "vtu"
             (one_file "job/model.frd" "two steps") "two steps").
    + right. reflexivity.
    + reflexivity.
    + reflexivity.
  - apply (main_outcome (H := sample) "job/model.frd" "vtu"
             (one_file "job/model.frd" "garbage") "garbage").
    + right. reflexivity.
    + reflexivity.
    + reflexivity.
Defined.

Lemma run_info_lines_witness :
  ∃ evs,
    events (run (H := sample) (converter_of "job/model.frd" "vtu")
              (one_file "job/model.frd" "two steps")).2 = [] ++ evs ∧
    infos evs
    = ["Parsing job/results/model.frd"; "2 time increments"]
      ++ ["Writing job/results/model.1.vtu";
          "Writing job/results/model.2.vtu"] ∧
    warnings evs = [].
Proof.
  apply (run_info_lines (H := sample) (converter_of "job/model.frd" "vtu")
           (one_file "job/model.frd" "two steps") "two steps" two_steps).
  - reflexivity.
  - vm_compute. discriminate.
  - reflexivity.
  - by eexists.
  - by eexists.
  - vm_compute. discriminate.
Defined.

Lemma untimed_name_three_characters_witness :
  ∃ pre,
    output_file (H := sample) (converter_of "job/model.fr" "vtk")
    = pre +:+ "model" +:+ "." +:+ "fr" ∧
    (Str.drop_last 3
       (output_file (H := sample) (converter_of "job/model.fr" "vtk"))
       +:+ "vtk"
     = pre +:+ "model" +:+ "." +:+ "vtk"
     ↔ String.length "fr" = 3) ∧
    (String.length "fr" = 2 →
     Str.drop_last 3
       (output_file (H := sample) (converter_of "job/model.fr" "vtk"))
       +:+ "vtk"
     = pre +:+ "model" +:+ "vtk").
Proof.
  apply (untimed_name_three_characters (H := sample)
           (converter_of "job/model.fr" "vtk")).
Defined.

Lemma names_sorted_by_increment_witness :
  String.ltb "job/results/model.09.vtk" "job/results/model.10.vtk" = true.
Proof.
  apply (names_sorted_by_increment (H := sample)
           (converter_of "job/model.frd" "vtk") 12 9 10).
  - reflexivity.
  - lia.
  - lia.
  - lia.
Defined.

Lemma plain_output_names_witness :
  __init__ "job/model.frd" "vtu" None = inr (plain_converter "job" "model" "vtu") ∧
  (∀ L k, 1 < L →
     Str.replace ".frd" (increment_ext (plain_converter "job" "model" "vtu") L k)
       (output_file (H := sample) (plain_converter "job" "model" "vtu"))
     = "job/results/model" +:+ "."
         +:+ Str.format_zero_pad (String.length (Str.of_nat L)) k
         +:+ "." +:+ "vtu") ∧
  (∀ L k, L ≤ 1 →
     Str.replace ".frd" (increment_ext (plain_converter "job" "model" "vtu") L k)
       (output_file (H := sample) (plain_converter "job" "model" "vtu"))
     = "job/results/model.vtu") ∧
  Str.drop_last 3
    (output_file (H := sample) (plain_converter "job" "model" "vtu")) +:+ "vtu"
  = "job/results/model.vtu" ∧
  Str.replace ".frd" ".pvd"
    (output_file (H := sample) (plain_converter "job" "model" "vtu"))
  = "job/results/model.pvd".
Proof.
  apply (plain_output_names (H := sample) "job" "model" "vtu").
  - discriminate.
  - reflexivity.
  - reflexivity.
  - reflexivity.
  - reflexivity.
Defined.

Lemma plain_run_keeps_input_witness :
  let w1 := (run (H := sample) (plain_converter "job" "model" "vtu")
               (one_file "job/model.frd" "two steps")).2 in
  files w1 !! "job/model.frd" = Some "two steps" ∧
  files w1 !! "job/results/model.frd" = Some "two steps" ∧
  ∀ path,
    files w1 !! path ≠ files (one_file "job/model.frd" "two steps") !! path →
    Str.startswith "job/results/model." path = true.
Proof.
  apply (plain_run_keeps_input (H := sample) "job" "model" "vtu").
  - discriminate.
  - reflexivity.
  - reflexivity.
  - reflexivity.
  - reflexivity.
  - reflexivity.
Defined.

Lemma plain_run_twice_witness :
  let c := plain_converter "job" "model" "vtu" in
  let w1 := (run (H := sample) c (one_file "job/model.frd" "two steps")).2 in
  (run (H := sample) c w1).1
  = (run (H := sample) c (one_file "job/model.frd" "two steps")).1 ∧
  files (run (H := sample) c w1).2 = files w1 ∧
  dirs (run (H := sample) c w1).2 = dirs w1.
Proof.
  apply (plain_run_twice (H := sample) "job" "model" "vtu").
  - discriminate.
  - reflexivity.
  - reflexivity.
  - reflexivity.
  - reflexivity.
Defined.

Lemma run_unknown_format_witness :
  ∃ evs,
    run (H := sample) (converter_of "job/model.frd" "stl")
      (one_file "job/model.frd" "two steps")
    = (inr tt,
       {| files := <["job/results/model.frd" := "two steps"]>
                     {["job/model.frd" := "two steps"]};
          dirs := {["job/results"]} ∪ ∅;
          events := [] ++ evs |}) ∧
    EParse "job/results/model.frd" ∈ evs ∧
    writer_calls evs = [] ∧ pvd_calls evs = [].
Proof.
  apply (run_unknown_format (H := sample) (converter_of "job/model.frd" "stl")
           (one_file "job/model.frd" "two steps") "two steps" two_steps).
  - vm_compute. discriminate.
  - vm_compute. discriminate.
  - reflexivity.
  - vm_compute. discriminate.
  - reflexivity.
Defined.

Lemma frd_folder_is_replaced_witness :
  __init__ "runs.frd/model.frd" "vtu" None
  = inr (converter_of "runs.frd/model.frd" "vtu") ∧
  output_folder (H := sample) (converter_of "runs.frd/model.frd" "vtu")
  = "runs.frd/results" ∧
  timed_name (H := sample) (converter_of "runs.frd/model.frd" "vtu") 2 1
  = "runs.1.vtu/results/model.1.vtu" ∧
  pvd_name (H := sample) (converter_of "runs.frd/model.frd" "vtu")
  = "runs.pvd/results/model.pvd" ∧
  untimed_name (H := sample) (converter_of "runs.frd/model.frd" "vtu")
  = "runs.frd/results/model.vtu" ∧
  Str.startswith
    (output_folder (H := sample) (converter_of "runs.frd/model.frd" "vtu"))
    (timed_name (H := sample) (converter_of "runs.frd/model.frd" "vtu") 2 1)
  = false.
Proof.
  apply (frd_folder_is_replaced (H := sample) "runs" "model" "vtu" 2 1).
  - reflexivity.
  - reflexivity.
  - reflexivity.
  - right. reflexivity.
Defined.



